(** * go-pilosa: the cluster (endpoint registry) and the HTTP client

    A shallow embedding of [cluster.go] and of the client file of the
    package [pilosa], with the properties of the request-dispatch
    subsystem proved about it.

    Conventions of the embedding:
    - a Go [int] is a [Z] in the signed 64-bit range, with the wrap-around
      of [+] and the truncated remainder of [%] written out ([GoInt]);
    - a Go pointer [*T] is [ptr T := option T], [None] being [nil];
    - a Go [string] and a [[]byte] are both byte sequences: [string];
    - a run-time panic (index out of range) is the outcome [Panics];
    - the receiver [c *Cluster] is mutated in place: every method takes the
      cluster and returns the cluster it leaves behind. *)

From Stdlib Require Import ZArith List String Ascii Bool Lia DecimalString.
Import ListNotations.

Local Open Scope Z_scope.

(** * Part I: the embedding *)

(** ** Go values *)

Module GoInt.

Definition min_int : Z := - 2 ^ 63.
Definition max_int : Z := 2 ^ 63 - 1.

(** Two's complement wrap-around of a 64-bit signed result. *)
Definition wrap (z : Z) : Z := (z + 2 ^ 63) mod 2 ^ 64 - 2 ^ 63.

Definition add (a b : Z) : Z := wrap (a + b).

(** Go's [%] truncates toward zero: the sign follows the dividend. *)
Definition rem (a b : Z) : Z := Z.rem a b.

End GoInt.

Definition ptr (T : Type) : Type := option T.
Definition nil' {T : Type} : ptr T := None.

(** The outcome of a call that may panic. *)
Inductive Outcome (A : Type) : Type :=
| Panics : Outcome A
| Returns : A -> Outcome A.
Arguments Panics {A}.
Arguments Returns {A} _.

Definition len {A : Type} (l : list A) : Z := Z.of_nat (List.length l).

(** [l[i]] of Go: panics unless [0 <= i < len(l)]. *)
Definition index {A : Type} (l : list A) (i : Z) : Outcome A :=
  if (0 <=? i) && (i <? len l)
  then match nth_error l (Z.to_nat i) with
       | Some a => Returns a
       | None => Panics
       end
  else Panics.

(** [%d] of [fmt]: the decimal digits, with a leading [-] when negative. *)
Definition decimal (z : Z) : string := NilZero.string_of_int (Z.to_int z).

(** ** URI *)

(** Modelled from the spec: the type [URI] and its method
    [GetNormalizedAddress] are declared in a file that is not part of the
    sources at hand. An endpoint is a value (scheme, host, port) whose
    canonical string form is [scheme://host:port]. *)
Record URI : Type := mkURI {
  scheme : string;
  host : string;
  port : Z
}.

Definition GetNormalizedAddress (u : URI) : string :=
  (scheme u ++ "://" ++ host u ++ ":" ++ decimal (port u))%string.

(** ** cluster.go *)

Record Cluster : Type := mkCluster {
  hosts : list (ptr URI);
  nextIndex : Z
}.

Definition NewCluster : Cluster :=
  {| hosts := []; nextIndex := 0 |}.

Definition AddHost (c : Cluster) (address : ptr URI) : Cluster :=
  {| hosts := hosts c ++ [address]; nextIndex := nextIndex c |}.

Definition NewClusterWithHost (host : ptr URI) : Cluster :=
  let cluster := NewCluster in
  AddHost cluster host.

Definition GetHost (c : Cluster) : Outcome (ptr URI * Cluster) :=
  if len (hosts c) =? 0 then Returns (nil', c)
  else
    match index (hosts c) (GoInt.rem (nextIndex c) (len (hosts c))) with
    | Panics => Panics
    | Returns uri =>
        Returns (uri,
                 {| hosts := hosts c;
                    nextIndex :=
                      GoInt.rem (GoInt.add (nextIndex c) 1) (len (hosts c)) |})
    end.

(** The body of [RemoveHost] is a [TODO] comment: nothing is done. *)
Definition RemoveHost (c : Cluster) (address : ptr URI) : Cluster := c.

(** [GetHosts] dereferences every pointer; a [nil] host panics. *)
Fixpoint deref_all (l : list (ptr URI)) (arr : list URI) : Outcome (list URI) :=
  match l with
  | [] => Returns arr
  | None :: _ => Panics
  | Some u :: l' => deref_all l' (arr ++ [u])
  end.

Definition GetHosts (c : Cluster) : Outcome (list URI) :=
  deref_all (hosts c) [].

(** A registry created fresh and populated with the endpoints [hs]. *)
Definition populate (hs : list (ptr URI)) : Cluster :=
  fold_left AddHost hs NewCluster.

(** [k] successive calls of [GetHost]: the addresses returned, in order,
    and the cluster left behind. *)
Fixpoint calls (k : nat) (c : Cluster) : Outcome (list (ptr URI) * Cluster) :=
  match k with
  | O => Returns ([], c)
  | S k' =>
      match GetHost c with
      | Panics => Panics
      | Returns (uri, c') =>
          match calls k' c' with
          | Panics => Panics
          | Returns (uris, c'') => Returns (uri :: uris, c'')
          end
      end
  end.

(** The cursor is a valid index, or zero in an empty registry. *)
Definition cursor_ok (c : Cluster) : Prop :=
  0 <= nextIndex c < Z.max 1 (len (hosts c)).

(** The address returned by a call, the cluster left behind forgotten. *)
Definition returned {A B : Type} (o : Outcome (A * B)) : Outcome A :=
  match o with
  | Panics => Panics
  | Returns (a, _) => Returns a
  end.

(** ** fmt.Sprintf *)

Local Open Scope string_scope.

Definition dq : string := String "034" EmptyString.
Definition newline : string := String "010" EmptyString.

(** An operand of [Sprintf]: the client passes strings and ints only. *)
Inductive operand : Type :=
| Str (s : string)
| Int (z : Z).

(** One verb applied to one operand. [%s] and [%v] print a string as it
    is, [%d] and [%v] print an int in decimal; a verb that does not fit
    the operand is printed the way [fmt] reports it. *)
Definition format_verb (verb : ascii) (a : operand) : string :=
  match a with
  | Str s =>
      if (Ascii.eqb verb "s" || Ascii.eqb verb "v")%bool then s
      else "%!" ++ String verb ("(string=" ++ s ++ ")")
  | Int z =>
      if (Ascii.eqb verb "d" || Ascii.eqb verb "v")%bool then decimal z
      else "%!" ++ String verb ("(int=" ++ decimal z ++ ")")
  end.

Fixpoint Sprintf (format : string) (a : list operand) : string :=
  match format with
  | EmptyString => EmptyString
  | String ch rest =>
      if Ascii.eqb ch "%" then
        match rest with
        | EmptyString => "%!(NOVERB)"
        | String verb rest' =>
            if Ascii.eqb verb "%" then String "%" (Sprintf rest' a)
            else
              match a with
              | [] => "%!" ++ String verb ("(MISSING)" ++ Sprintf rest' [])
              | x :: a' => format_verb verb x ++ Sprintf rest' a'
              end
        end
      else String ch (Sprintf rest a)
  end.

(** ** Errors *)

(** Modelled from the spec: the declarations of the error values
    [ErrorEmptyCluster], [ErrorDatabaseExists], [ErrorFrameExists] and of
    [NewPilosaError] are in a file that is not part of the sources at hand.
    The three are distinguished values, compared by identity; a value
    made by [NewPilosaError] is a fresh one that carries its message and
    is none of the three; an error of a library ([net/http], [ioutil],
    [encoding/json], the protobuf codec) is a value of that library. *)
Inductive error : Type :=
| ErrorEmptyCluster
| ErrorDatabaseExists
| ErrorFrameExists
| PilosaError (message : string)
| LibraryError (description : string).

Definition NewPilosaError (message : string) : error := PilosaError message.

(** [err == e] of Go for an error value [err] that may be [nil] and one
    of the three distinguished values [e]. *)
Definition is_error (err : option error) (e : error) : bool :=
  match err, e with
  | Some ErrorEmptyCluster, ErrorEmptyCluster => true
  | Some ErrorDatabaseExists, ErrorDatabaseExists => true
  | Some ErrorFrameExists, ErrorFrameExists => true
  | _, _ => false
  end.

(** ** net/http *)

Definition Header : Type := list (string * string).

Fixpoint Header_Set (h : Header) (key value : string) : Header :=
  match h with
  | [] => [(key, value)]
  | (k, v) :: h' =>
      if String.eqb k key then (key, value) :: h'
      else (k, v) :: Header_Set h' key value
  end.

Fixpoint Header_Get (h : Header) (key : string) : string :=
  match h with
  | [] => EmptyString
  | (k, v) :: h' => if String.eqb k key then v else Header_Get h' key
  end.

Record Request : Type := mkRequest {
  Method : string;
  URL : string;
  ReqHeader : Header;
  ReqBody : string
}.

(** A response: the status line, and what reading the body to its end
    gives ([ioutil.ReadAll]): the bytes, and the error if the read fails. *)
Record Response : Type := mkResponse {
  StatusCode : Z;
  Status : string;
  Body : string;
  BodyErr : option error
}.

Definition ioutil_ReadAll (r : Response) : string * option error :=
  (Body r, BodyErr r).

(** [bytes.NewReader(data)]: a [nil] slice reads as no byte at all. *)
Definition bytes_NewReader (data : ptr string) : string :=
  match data with
  | None => EmptyString
  | Some b => b
  end.

(** ** The data of the client *)

Record QueryOptions : Type := mkQueryOptions {
  GetProfiles : bool
}.

Record DatabaseOptions : Type := mkDatabaseOptions {
  columnLabel : string
}.

Record FrameOptions : Type := mkFrameOptions {
  rowLabel : string
}.

Record Database : Type := mkDatabase {
  Database_name : string;
  Database_options : DatabaseOptions
}.

(** [database] is a pointer in the source; [FrameWithRowLabel], the only
    constructor, sets it to its receiver, so it is never [nil]. *)
Record Frame : Type := mkFrame {
  Frame_name : string;
  Frame_database : Database;
  Frame_options : FrameOptions
}.

Record FrameInfo : Type := mkFrameInfo {
  FrameInfo_Name : string
}.

Record DBInfo : Type := mkDBInfo {
  DBInfo_Name : string;
  Frames : list (ptr FrameInfo)
}.

Record Schema : Type := mkSchema {
  DBs : list (ptr DBInfo)
}.

(** The request envelope of [internal.QueryRequest]. *)
Record QueryRequest : Type := mkQueryRequest {
  DB : string;
  Query_ : string;
  Profiles : bool
}.

(** ** What lies outside the package *)

(** The libraries and the network the client talks to.
    - [NewRequest_check method url]: the error of [http.NewRequest], if the
      method or the URL is refused;
    - [RoundTrip sent request]: what [client.Do] gives for [request] after
      the requests [sent] went out: a response or a transport error;
    - [Marshal], [Unmarshal], [newQueryResponseFromInternal]: the protobuf
      codec of the package [internal] and the conversion of its result;
    - [json_Decode]: [encoding/json] decoding a schema. *)
Record Env : Type := mkEnv {
  InternalQueryResponse : Type;
  QueryResponse : Type;
  NewRequest_check : string -> string -> option error;
  RoundTrip : list Request -> Request -> Response + error;
  Marshal : QueryRequest -> string;
  Unmarshal : string -> InternalQueryResponse * option error;
  newQueryResponseFromInternal :
    InternalQueryResponse -> ptr QueryResponse * option error;
  json_Decode : string -> ptr Schema * option error
}.

(** The state a call runs in: the cluster the client points to, and the
    requests that went out on the network so far. *)
Record World : Type := mkWorld {
  cluster : Cluster;
  wire : list Request
}.

(** A computation of the client: it panics, or returns a value and the
    state it leaves. *)
Definition M (A : Type) : Type := World -> Outcome (A * World).

Definition ret {A : Type} (a : A) : M A := fun w => Returns (a, w).

Definition bind {A B : Type} (m : M A) (k : A -> M B) : M B :=
  fun w =>
    match m w with
    | Panics => Panics
    | Returns (a, w') => k a w'
    end.

Notation "x <- m ;; k" := (bind m (fun x => k))
  (at level 100, m at next level, right associativity).

(** [c.cluster.GetHost()] *)
Definition cluster_GetHost : M (ptr URI) :=
  fun w =>
    match GetHost (cluster w) with
    | Panics => Panics
    | Returns (addr, c') => Returns (addr, {| cluster := c'; wire := wire w |})
    end.

(** ** The client *)

Definition database_already_exists : string :=
  "database already exists" ++ newline.

Definition frame_already_exists : string :=
  "frame already exists" ++ newline.

Section Client.

Variable env : Env.

(** [http.NewRequest]: the request has the method, the URL and the body
    given, and no header yet. *)
Definition http_NewRequest (method url body : string) : Request + error :=
  match NewRequest_check env method url with
  | Some err => inr err
  | None =>
      inl {| Method := method; URL := url; ReqHeader := []; ReqBody := body |}
  end.

(** [client.Do]: the request goes out, and the network answers. *)
Definition client_Do (request : Request) : M (Response + error) :=
  fun w =>
    Returns (RoundTrip env (wire w) request,
             {| cluster := cluster w; wire := (wire w ++ [request])%list |}).

Definition httpRequest (method path : string) (data : ptr string)
           (needsResponse : bool) : M (ptr string * option error) :=
  addr <- cluster_GetHost ;;
  match addr with
  | None => ret (nil', Some ErrorEmptyCluster)
  | Some uri =>
      match http_NewRequest method (GetNormalizedAddress uri ++ path)
                            (bytes_NewReader data) with
      | inr err => ret (nil', Some err)
      | inl request =>
          let request :=
            {| Method := Method request; URL := URL request;
               ReqHeader := Header_Set (ReqHeader request)
                              "Content-Type" "application/x-protobuf";
               ReqBody := ReqBody request |} in
          let request :=
            {| Method := Method request; URL := URL request;
               ReqHeader := Header_Set (ReqHeader request)
                              "Accept" "application/x-protobuf";
               ReqBody := ReqBody request |} in
          r <- client_Do request ;;
          match r with
          | inr err => ret (nil', Some err)
          | inl response =>
              if ((StatusCode response <? 200)%Z
                  || (StatusCode response >=? 300)%Z)%bool
              then
                match ioutil_ReadAll response with
                | (_, Some err) => ret (nil', Some err)
                | (buf, None) =>
                    let msg := buf in
                    if String.eqb msg database_already_exists
                    then ret (nil', Some ErrorDatabaseExists)
                    else if String.eqb msg frame_already_exists
                    then ret (nil', Some ErrorFrameExists)
                    else
                      ret (nil',
                           Some (NewPilosaError
                                   (Sprintf "Server error (%d) %s: %s"
                                      [Int (StatusCode response);
                                       Str (Status response);
                                       Str msg])))
                end
              else if needsResponse then
                match ioutil_ReadAll response with
                | (_, Some err) => ret (nil', Some err)
                | (buf, None) => ret (Some buf, None)
                end
              else ret (nil', None)
          end
      end
  end.

Definition makeRequestData (databaseName query : string)
           (options : QueryOptions) : string :=
  let request :=
    {| DB := databaseName; Query_ := query;
       Profiles := GetProfiles options |} in
  Marshal env request.

Definition QueryWithOptions (options : QueryOptions) (database : Database)
           (query : string) : M (ptr (QueryResponse env) * option error) :=
  let data := makeRequestData (Database_name database) query options in
  r <- httpRequest "POST" "/query" (Some data) true ;;
  match r with
  | (_, Some err) => ret (nil', Some err)
  | (buf, None) =>
      match Unmarshal env (bytes_NewReader buf) with
      | (_, Some err) => ret (nil', Some err)
      | (iqr, None) => ret (newQueryResponseFromInternal env iqr)
      end
  end.

Definition Query (database : Database) (query : string)
  : M (ptr (QueryResponse env) * option error) :=
  QueryWithOptions {| GetProfiles := false |} database query.

Definition createOrDeleteDatabase (method : string) (database : Database)
  : M (option error) :=
  let data :=
    Sprintf ("{" ++ dq ++ "db" ++ dq ++ ": " ++ dq ++ "%s" ++ dq ++ ", "
             ++ dq ++ "options" ++ dq ++ ": {" ++ dq ++ "columnLabel" ++ dq
             ++ ": " ++ dq ++ "%s" ++ dq ++ "}}")
            [Str (Database_name database);
             Str (columnLabel (Database_options database))] in
  r <- httpRequest method "/db" (Some data) false ;;
  ret (snd r).

Definition createOrDeleteFrame (method : string) (frame : Frame)
  : M (option error) :=
  let data :=
    Sprintf ("{" ++ dq ++ "db" ++ dq ++ ": " ++ dq ++ "%s" ++ dq ++ ", "
             ++ dq ++ "frame" ++ dq ++ ": " ++ dq ++ "%s" ++ dq ++ ", "
             ++ dq ++ "options" ++ dq ++ ": {" ++ dq ++ "rowLabel" ++ dq
             ++ ": " ++ dq ++ "%s" ++ dq ++ "}}")
            [Str (Database_name (Frame_database frame));
             Str (Frame_name frame);
             Str (rowLabel (Frame_options frame))] in
  r <- httpRequest method "/frame" (Some data) false ;;
  ret (snd r).

Definition CreateDatabase (database : Database) : M (option error) :=
  createOrDeleteDatabase "POST" database.

Definition CreateFrame (frame : Frame) : M (option error) :=
  createOrDeleteFrame "POST" frame.

Definition EnsureDatabaseExists (database : Database) : M (option error) :=
  err <- CreateDatabase database ;;
  if is_error err ErrorDatabaseExists then ret None
  else ret err.

Definition EnsureFrameExists (frame : Frame) : M (option error) :=
  err <- CreateFrame frame ;;
  if is_error err ErrorFrameExists then ret None
  else ret err.

Definition DeleteDatabase (database : Database) : M (option error) :=
  createOrDeleteDatabase "DELETE" database.

Definition DeleteFrame (frame : Frame) : M (option error) :=
  createOrDeleteFrame "DELETE" frame.

Definition Schema_ : M (ptr Schema * option error) :=
  r <- httpRequest "GET" "/schema" nil' true ;;
  match r with
  | (_, Some err) => ret (nil', Some err)
  | (response, None) =>
      match json_Decode env (bytes_NewReader response) with
      | (_, Some err) => ret (nil', Some err)
      | (schema, None) => ret (schema, None)
      end
  end.

(** The operations the client offers, and the error each one returns. *)
Inductive Operation : Type :=
| OpQuery (database : Database) (query : string)
| OpQueryWithOptions (options : QueryOptions) (database : Database)
                     (query : string)
| OpCreateDatabase (database : Database)
| OpCreateFrame (frame : Frame)
| OpEnsureDatabaseExists (database : Database)
| OpEnsureFrameExists (frame : Frame)
| OpDeleteDatabase (database : Database)
| OpDeleteFrame (frame : Frame)
| OpSchema.

Definition perform (op : Operation) : M (option error) :=
  match op with
  | OpQuery database query => r <- Query database query ;; ret (snd r)
  | OpQueryWithOptions options database query =>
      r <- QueryWithOptions options database query ;; ret (snd r)
  | OpCreateDatabase database => CreateDatabase database
  | OpCreateFrame frame => CreateFrame frame
  | OpEnsureDatabaseExists database => EnsureDatabaseExists database
  | OpEnsureFrameExists frame => EnsureFrameExists frame
  | OpDeleteDatabase database => DeleteDatabase database
  | OpDeleteFrame frame => DeleteFrame frame
  | OpSchema => r <- Schema_ ;; ret (snd r)
  end.

End Client.

Arguments Operation : clear implicits.

(** ** What a call puts on the network, and how the answer is read *)

Definition protobuf_headers : Header :=
  [("Content-Type", "application/x-protobuf");
   ("Accept", "application/x-protobuf")].

(** The request that leaves for [url]. *)
Definition outgoing (method url body : string) : Request :=
  {| Method := method; URL := url; ReqHeader := protobuf_headers;
     ReqBody := body |}.

Definition non_2xx (response : Response) : Prop :=
  (StatusCode response < 200 \/ 300 <= StatusCode response)%Z.

Definition server_error_message (response : Response) : string :=
  "Server error (" ++ decimal (StatusCode response) ++ ") "
  ++ Status response ++ ": " ++ Body response.

(** The outcome classification of [httpRequest], read off its last part. *)
Definition classify (r : Response + error) (needsResponse : bool)
  : ptr string * option error :=
  match r with
  | inr err => (nil', Some err)
  | inl response =>
      if ((StatusCode response <? 200)%Z || (StatusCode response >=? 300)%Z)%bool
      then
        match BodyErr response with
        | Some err => (nil', Some err)
        | None =>
            if String.eqb (Body response) database_already_exists
            then (nil', Some ErrorDatabaseExists)
            else if String.eqb (Body response) frame_already_exists
            then (nil', Some ErrorFrameExists)
            else (nil', Some (PilosaError (server_error_message response)))
        end
      else if needsResponse then
        match BodyErr response with
        | Some err => (nil', Some err)
        | None => (Some (Body response), None)
        end
      else (nil', None)
  end.

(** The exchange of a call [(method, path, data)] made in the state [w]
    is answered by [response]: an endpoint is selected, the request is
    accepted by [http.NewRequest], and the network returns [response]. *)
Definition answered (env : Env) (w : World) (method path : string)
           (data : ptr string) (response : Response) : Prop :=
  exists uri c',
    GetHost (cluster w) = Returns (Some uri, c') /\
    NewRequest_check env method (GetNormalizedAddress uri ++ path) = None /\
    RoundTrip env (wire w)
      (outgoing method (GetNormalizedAddress uri ++ path)
                (bytes_NewReader data)) = inl response.

(** ** The wire contract of the administrative calls *)

(** The JSON body of a call on [/db], as the wire contract writes it. *)
Definition database_body (database : Database) : string :=
  "{" ++ dq ++ "db" ++ dq ++ ": " ++ dq ++ Database_name database ++ dq
  ++ ", " ++ dq ++ "options" ++ dq ++ ": {" ++ dq ++ "columnLabel" ++ dq
  ++ ": " ++ dq ++ columnLabel (Database_options database) ++ dq ++ "}}".

(** The JSON body of a call on [/frame], as the wire contract writes it. *)
Definition frame_body (frame : Frame) : string :=
  "{" ++ dq ++ "db" ++ dq ++ ": " ++ dq
  ++ Database_name (Frame_database frame) ++ dq
  ++ ", " ++ dq ++ "frame" ++ dq ++ ": " ++ dq ++ Frame_name frame ++ dq
  ++ ", " ++ dq ++ "options" ++ dq ++ ": {" ++ dq ++ "rowLabel" ++ dq
  ++ ": " ++ dq ++ rowLabel (Frame_options frame) ++ dq ++ "}}".

(** The method, the path and the body the wire contract gives to each
    administrative operation. *)
Definition admin_call (op : Operation) : option (string * string * string) :=
  match op with
  | OpCreateDatabase database | OpEnsureDatabaseExists database =>
      Some ("POST", "/db", database_body database)
  | OpDeleteDatabase database => Some ("DELETE", "/db", database_body database)
  | OpCreateFrame frame | OpEnsureFrameExists frame =>
      Some ("POST", "/frame", frame_body frame)
  | OpDeleteFrame frame => Some ("DELETE", "/frame", frame_body frame)
  | OpQuery _ _ | OpQueryWithOptions _ _ _ | OpSchema => None
  end.

(** The encoding of the body an operation sends: the protobuf envelope of
    a query, the JSON text of an administrative call; a schema fetch has
    no body. *)
Inductive Encoding : Type := Binary | JSON.

Definition body_encoding (op : Operation) : option Encoding :=
  match op with
  | OpQuery _ _ | OpQueryWithOptions _ _ _ => Some Binary
  | OpSchema => None
  | _ => Some JSON
  end.

(** ** The statements of the specification that the code does not meet, as worded *)

(** The [j]-th of [k] selections started at cursor [i] is the host at
    [(i + j) mod N]. *)
Definition rotation (hs : list (ptr URI)) (i k : nat) : list (ptr URI) :=
  map (fun j => nth ((i + j) mod List.length hs) hs nil') (seq 0 k).

Definition is_create (op : Operation) : bool :=
  match op with
  | OpCreateDatabase _ | OpCreateFrame _ => true
  | _ => false
  end.

(** C3, as the claim words it: on a create call answered by a non-2xx
    status, the body [database already exists] gives
    [ErrorDatabaseExists], and any other body gives the generic error. *)
Definition create_classification_as_stated : Prop :=
  forall env op method path body w response,
    is_create op = true ->
    admin_call op = Some (method, path, body) ->
    answered env w method path (Some body) response ->
    non_2xx response ->
    BodyErr response = None ->
    exists err w',
      perform env op w = Returns (err, w') /\
      (Body response = database_already_exists ->
       err = Some ErrorDatabaseExists) /\
      (Body response <> database_already_exists ->
       err = Some (PilosaError (server_error_message response))).

(** C4, as the claim words it: the body [frame already exists] gives
    [ErrorFrameExists] on the frame path, and the mapping tells the paths
    apart, so that on the database path it does not. *)
Definition frame_classification_as_stated : Prop :=
  forall env w response,
    non_2xx response ->
    BodyErr response = None ->
    Body response = frame_already_exists ->
    (forall frame,
        answered env w "POST" "/frame" (Some (frame_body frame)) response ->
        exists w',
          CreateFrame env frame w = Returns (Some ErrorFrameExists, w')) /\
    (forall database,
        answered env w "POST" "/db" (Some (database_body database)) response ->
        exists err w',
          CreateDatabase env database w = Returns (err, w') /\
          err <> Some ErrorFrameExists).

(** C5, as the claim words it: the headers of every request match the
    encoding of its body, so that the codec can be selected from them. *)
Definition headers_match_encoding_as_stated : Prop :=
  exists select : Header -> Encoding,
    forall env op encoding w err w' request,
      body_encoding op = Some encoding ->
      perform env op w = Returns (err, w') ->
      wire w' = (wire w ++ [request])%list ->
      select (ReqHeader request) = encoding.

(** ** Concrete endpoints, values and networks *)

Definition uri_a : URI := {| scheme := "http"; host := "a"; port := 10101 |}.
Definition uri_b : URI := {| scheme := "http"; host := "b"; port := 10101 |}.
Definition uri_c : URI := {| scheme := "http"; host := "c"; port := 10101 |}.

(** A network that answers every request with the same response; the
    codecs decode nothing. *)
Definition env_answering (response : Response) : Env :=
  {| InternalQueryResponse := unit;
     QueryResponse := unit;
     NewRequest_check := fun _ _ => None;
     RoundTrip := fun _ _ => inl response;
     Marshal := fun q => DB q ++ Query_ q;
     Unmarshal := fun _ => (tt, None);
     newQueryResponseFromInternal := fun _ => (Some tt, None);
     json_Decode := fun _ => (Some {| DBs := [] |}, None) |}.

Definition conflict (body : string) : Response :=
  {| StatusCode := 409; Status := "409 Conflict"; Body := body;
     BodyErr := None |}.

Definition ok : Response :=
  {| StatusCode := 200; Status := "200 OK"; Body := EmptyString;
     BodyErr := None |}.

Definition world_a : World :=
  {| cluster := NewClusterWithHost (Some uri_a); wire := [] |}.

Definition database_x : Database :=
  {| Database_name := "x";
     Database_options := {| columnLabel := "profileID" |} |}.

Definition frame_y : Frame :=
  {| Frame_name := "y"; Frame_database := database_x;
     Frame_options := {| rowLabel := "id" |} |}.

(** ** The rest of the package: sequences of calls, constructors *)

(** A call on a cluster, and a sequence of calls made one after the
    other on the same cluster. *)
Inductive ClusterCall : Type :=
| CallAddHost (address : ptr URI)
| CallGetHost
| CallRemoveHost (address : ptr URI).

Definition cluster_call (c : Cluster) (call : ClusterCall) : Outcome Cluster :=
  match call with
  | CallAddHost address => Returns (AddHost c address)
  | CallGetHost =>
      match GetHost c with
      | Panics => Panics
      | Returns (_, c') => Returns c'
      end
  | CallRemoveHost address => Returns (RemoveHost c address)
  end.

Fixpoint cluster_calls (l : list ClusterCall) (c : Cluster) : Outcome Cluster :=
  match l with
  | [] => Returns c
  | call :: l' =>
      match cluster_call c call with
      | Panics => Panics
      | Returns c' => cluster_calls l' c'
      end
  end%list.

(** The struct [Client]: a pointer to the cluster, which is the cluster
    component of the state the calls of the client run in. *)
Record Client : Type := mkClient {
  Client_cluster : Cluster
}.

Definition NewClientWithCluster (cluster : Cluster) : Client :=
  {| Client_cluster := cluster |}.

Definition NewClientWithAddress (address : ptr URI) : Client :=
  NewClientWithCluster (NewClusterWithHost address).

(** The state in which the calls of a client run, [sent] being the
    requests that went out before. *)
Definition world_of (c : Client) (sent : list Request) : World :=
  {| cluster := Client_cluster c; wire := sent |}.

(** Operations performed one after the other by the same client. *)
Fixpoint perform_all (env : Env) (ops : list Operation)
  : M (list (option error)) :=
  match ops with
  | [] => ret []
  | op :: ops' =>
      err <- perform env op ;;
      errs <- perform_all env ops' ;;
      ret (err :: errs)
  end%list.

(** The arguments each operation gives to [httpRequest]: the method, the
    path, the data and whether a response body is wanted. *)
Definition call_of (env : Env) (op : Operation)
  : string * string * ptr string * bool :=
  match op with
  | OpQuery database query =>
      ("POST", "/query",
       Some (Marshal env {| DB := Database_name database; Query_ := query;
                            Profiles := false |}), true)
  | OpQueryWithOptions options database query =>
      ("POST", "/query",
       Some (Marshal env {| DB := Database_name database; Query_ := query;
                            Profiles := GetProfiles options |}), true)
  | OpCreateDatabase database | OpEnsureDatabaseExists database =>
      ("POST", "/db", Some (database_body database), false)
  | OpDeleteDatabase database =>
      ("DELETE", "/db", Some (database_body database), false)
  | OpCreateFrame frame | OpEnsureFrameExists frame =>
      ("POST", "/frame", Some (frame_body frame), false)
  | OpDeleteFrame frame =>
      ("DELETE", "/frame", Some (frame_body frame), false)
  | OpSchema => ("GET", "/schema", nil', true)
  end.

Definition method_of (env : Env) (op : Operation) : string :=
  fst (fst (fst (call_of env op))).

Definition path_of (env : Env) (op : Operation) : string :=
  snd (fst (fst (call_of env op))).

Definition data_of (env : Env) (op : Operation) : ptr string :=
  snd (fst (call_of env op)).

(** The request an operation addresses to the endpoint [uri]. *)
Definition request_of (env : Env) (op : Operation) (uri : URI) : Request :=
  outgoing (method_of env op) (GetNormalizedAddress uri ++ path_of env op)
           (bytes_NewReader (data_of env op)).

(** The error an operation returns, given what [httpRequest] returned
    to it. *)
Definition settle (env : Env) (op : Operation)
           (r : ptr string * option error) : option error :=
  match op with
  | OpQuery _ _ | OpQueryWithOptions _ _ _ =>
      match r with
      | (_, Some err) => Some err
      | (buf, None) =>
          match Unmarshal env (bytes_NewReader buf) with
          | (_, Some err) => Some err
          | (iqr, None) => snd (newQueryResponseFromInternal env iqr)
          end
      end
  | OpEnsureDatabaseExists _ =>
      if is_error (snd r) ErrorDatabaseExists then None else snd r
  | OpEnsureFrameExists _ =>
      if is_error (snd r) ErrorFrameExists then None else snd r
  | OpSchema =>
      match r with
      | (_, Some err) => Some err
      | (response, None) =>
          snd (json_Decode env (bytes_NewReader response))
      end
  | _ => snd r
  end.

Definition is_plain_admin (op : Operation) : bool :=
  match op with
  | OpCreateDatabase _ | OpCreateFrame _
  | OpDeleteDatabase _ | OpDeleteFrame _ => true
  | _ => false
  end.

(** The requests that [ops], dispatched in turn over the endpoints [us]
    from the cursor [i] on, put on the network when none is refused. *)
Fixpoint dispatched (env : Env) (us : list URI) (i : nat)
         (ops : list Operation) : list Request :=
  match ops with
  | [] => []
  | op :: ops' =>
      match nth_error us i with
      | Some u => request_of env op u
      | None => request_of env op {| scheme := EmptyString;
                                      host := EmptyString; port := 0 |}
      end :: dispatched env us (S i mod List.length us) ops'
  end%list.

(** The constructors of [Database] and [Frame]. The three validators are
    declared in a file that is not part of the sources at hand: they are
    parameters, each returning the error it finds, if any. *)
Section Constructors.

Variable validateLabel : string -> option error.
Variable validateDatabaseName : string -> option error.
Variable validateFrameName : string -> option error.

Definition NewDatabaseOptionsWithColumnLabel (label : string)
  : ptr DatabaseOptions * option error :=
  match validateLabel label with
  | Some err => (nil', Some err)
  | None => (Some {| columnLabel := label |}, None)
  end.

(** [*options] panics when [options] is [nil], after the name is
    validated. *)
Definition NewDatabaseWithOptions (name : string)
           (options : ptr DatabaseOptions)
  : Outcome (ptr Database * option error) :=
  match validateDatabaseName name with
  | Some err => Returns (nil', Some err)
  | None =>
      match options with
      | None => Panics
      | Some o =>
          Returns (Some {| Database_name := name; Database_options := o |},
                   None)
      end
  end.

Definition NewDatabaseWithColumnLabel (name label : string)
  : Outcome (ptr Database * option error) :=
  match NewDatabaseOptionsWithColumnLabel label with
  | (_, Some err) => Returns (nil', Some err)
  | (options, None) => NewDatabaseWithOptions name options
  end.

Definition NewDatabase (name : string)
  : Outcome (ptr Database * option error) :=
  NewDatabaseWithColumnLabel name "profileID".

Definition GetName (d : Database) : string := Database_name d.

Definition FrameWithRowLabel (d : Database) (name label : string)
  : ptr Frame * option error :=
  match validateFrameName name with
  | Some err => (nil', Some err)
  | None =>
      (Some {| Frame_name := name; Frame_database := d;
               Frame_options := {| rowLabel := label |} |}, None)
  end.

Definition Database_Frame (d : Database) (name : string)
  : ptr Frame * option error :=
  FrameWithRowLabel d name "id".

End Constructors.

(** A network on which every exchange fails, and a library that refuses
    every request. *)
Definition env_failing (description : string) : Env :=
  {| InternalQueryResponse := unit;
     QueryResponse := unit;
     NewRequest_check := fun _ _ => None;
     RoundTrip := fun _ _ => inr (LibraryError description);
     Marshal := fun q => DB q ++ Query_ q;
     Unmarshal := fun _ => (tt, None);
     newQueryResponseFromInternal := fun _ => (Some tt, None);
     json_Decode := fun _ => (Some {| DBs := [] |}, None) |}.

Definition env_refusing (description : string) : Env :=
  {| InternalQueryResponse := unit;
     QueryResponse := unit;
     NewRequest_check := fun _ _ => Some (LibraryError description);
     RoundTrip := fun _ _ => inl ok;
     Marshal := fun q => DB q ++ Query_ q;
     Unmarshal := fun _ => (tt, None);
     newQueryResponseFromInternal := fun _ => (Some tt, None);
     json_Decode := fun _ => (Some {| DBs := [] |}, None) |}.

(** A validator that refuses the empty string only. *)
Definition refuse_empty (what : string) (s : string) : option error :=
  if String.eqb s EmptyString then Some (LibraryError what) else None.

(** * Part II: the properties *)

(** ** Go values *)

Module GoIntFacts.

Lemma wrap_small z :
  GoInt.min_int <= z <= GoInt.max_int -> GoInt.wrap z = z.
Proof.
  unfold GoInt.wrap, GoInt.min_int, GoInt.max_int. intros Hz.
  rewrite Z.mod_small by lia. lia.
Qed.

Lemma rem_small a b : 0 <= a < b -> GoInt.rem a b = a.
Proof. intros H. unfold GoInt.rem. now apply Z.rem_small. Qed.

End GoIntFacts.

(** ** Properties of the cluster *)

Section ClusterFacts.

Local Open Scope list_scope.
Local Open Scope Z_scope.

Lemma len_app {A : Type} (l1 l2 : list A) : len (l1 ++ l2) = len l1 + len l2.
Proof. unfold len. rewrite length_app. lia. Qed.

Lemma len_nonneg {A : Type} (l : list A) : 0 <= len l.
Proof. unfold len. lia. Qed.

Lemma len_zero_nil {A : Type} (l : list A) : len l = 0 -> l = [].
Proof. destruct l; [reflexivity | unfold len; simpl; lia]. Qed.

Lemma index_in_range {A : Type} (l : list A) (i : nat) (a : A) :
  nth_error l i = Some a -> index l (Z.of_nat i) = Returns a.
Proof.
  intros Hnth. unfold index.
  assert (Hlt : (i < List.length l)%nat) by (apply nth_error_Some; congruence).
  replace (0 <=? Z.of_nat i) with true by (symmetry; apply Z.leb_le; lia).
  replace (Z.of_nat i <? len l) with true
    by (symmetry; apply Z.ltb_lt; unfold len; lia).
  simpl. rewrite Nat2Z.id, Hnth. reflexivity.
Qed.

Lemma populate_from (hs : list (ptr URI)) (c : Cluster) :
  fold_left AddHost hs c =
  {| hosts := hosts c ++ hs; nextIndex := nextIndex c |}.
Proof.
  revert c. induction hs as [|h hs IH]; intros c; simpl.
  - rewrite app_nil_r. now destruct c.
  - rewrite IH. simpl. now rewrite <- app_assoc.
Qed.

Lemma populate_eq (hs : list (ptr URI)) :
  populate hs = {| hosts := hs; nextIndex := 0 |}.
Proof. unfold populate. now rewrite populate_from. Qed.

(** One selection at a valid cursor [i]: the host at [i] is returned and
    the cursor moves to [(i + 1) mod N]. *)
Lemma GetHost_at (hs : list (ptr URI)) (i : nat) (u : ptr URI) :
  len hs <= GoInt.max_int ->
  nth_error hs i = Some u ->
  GetHost {| hosts := hs; nextIndex := Z.of_nat i |} =
  Returns (u, {| hosts := hs;
                 nextIndex := Z.of_nat (S i mod List.length hs) |}).
Proof.
  intros Hmax Hnth.
  assert (Hlt : (i < List.length hs)%nat) by (apply nth_error_Some; congruence).
  unfold GetHost; simpl.
  assert (Hlen : len hs = Z.of_nat (List.length hs)) by reflexivity.
  destruct (Z.eqb_spec (len hs) 0) as [H0|_]; [lia|].
  rewrite GoIntFacts.rem_small by lia.
  rewrite (index_in_range _ _ _ Hnth).
  unfold GoInt.add. rewrite GoIntFacts.wrap_small
    by (unfold GoInt.min_int, GoInt.max_int in *; lia).
  unfold GoInt.rem. rewrite Z.rem_mod_nonneg by lia.
  rewrite Hlen. replace (Z.of_nat i + 1) with (Z.of_nat (S i)) by lia.
  rewrite <- Nat2Z.inj_mod. reflexivity.
Qed.

Lemma rotation_S hs i k :
  (i < List.length hs)%nat ->
  rotation hs i (S k) = nth i hs nil' :: rotation hs (S i mod List.length hs) k.
Proof.
  intros Hlt. unfold rotation. simpl. f_equal.
  - now rewrite Nat.add_0_r, Nat.mod_small.
  - rewrite <- seq_shift, map_map. apply map_ext. intros j.
    rewrite Nat.Div0.add_mod_idemp_l.
    now replace (S i + j)%nat with (i + S j)%nat by lia.
Qed.

Lemma calls_from (hs : list (ptr URI)) :
  len hs <= GoInt.max_int ->
  forall (k i : nat),
    (i < List.length hs)%nat ->
    calls k {| hosts := hs; nextIndex := Z.of_nat i |} =
    Returns (rotation hs i k,
             {| hosts := hs;
                nextIndex := Z.of_nat ((i + k) mod List.length hs) |}).
Proof.
  intros Hmax. induction k as [|k IH]; intros i Hlt.
  - simpl. now rewrite Nat.add_0_r, Nat.mod_small.
  - assert (Hnth : nth_error hs i = Some (nth i hs nil'))
      by now apply nth_error_nth'.
    cbn [calls]. rewrite (GetHost_at hs i _ Hmax Hnth).
    assert (Hlt' : (S i mod List.length hs < List.length hs)%nat)
      by (apply Nat.mod_upper_bound; lia).
    rewrite (IH _ Hlt'), (rotation_S hs i k Hlt).
    rewrite Nat.Div0.add_mod_idemp_l.
    now replace (S i + k)%nat with (i + S k)%nat by lia.
Qed.

Lemma rotation_once hs : rotation hs 0 (List.length hs) = hs.
Proof.
  unfold rotation. apply nth_ext with (d := nil') (d' := nil').
  - now rewrite length_map, length_seq.
  - intros n Hn. rewrite length_map, length_seq in Hn.
    rewrite (nth_indep _ nil' (nth ((0 + 0) mod List.length hs) hs nil'))
      by now rewrite length_map, length_seq.
    rewrite (map_nth (fun j => nth ((0 + j) mod List.length hs) hs nil')).
    rewrite seq_nth by exact Hn. simpl. now rewrite Nat.mod_small.
Qed.

Lemma rotation_shift (hs : list (ptr URI)) i s k :
  map (fun j => nth ((i + j) mod List.length hs) hs nil')
      (seq (s + List.length hs) k) =
  map (fun j => nth ((i + j) mod List.length hs) hs nil') (seq s k).
Proof.
  revert s. induction k as [|k IH]; intros s; simpl; [reflexivity|].
  f_equal.
  - f_equal. rewrite Nat.add_assoc.
    rewrite <- (Nat.mul_1_l (List.length hs)) at 1.
    apply Nat.Div0.mod_add.
  - apply (IH (S s)).
Qed.

Lemma rotation_twice hs :
  rotation hs 0 (List.length hs + List.length hs) = hs ++ hs.
Proof.
  unfold rotation. rewrite seq_app, map_app.
  rewrite (rotation_shift hs 0 0 (List.length hs)).
  fold (rotation hs 0 (List.length hs)). now rewrite rotation_once.
Qed.

Lemma GetHost_keeps_hosts c u c' :
  GetHost c = Returns (u, c') -> hosts c' = hosts c.
Proof.
  unfold GetHost. destruct (len (hosts c) =? 0).
  - intros [= _ <-]. reflexivity.
  - destruct (index _ _); [discriminate|]. intros [= _ <-]. reflexivity.
Qed.

(** The invariant of the registry: a selection keeps the cursor valid. *)
Lemma GetHost_cursor_ok c u c' :
  len (hosts c) <= GoInt.max_int ->
  cursor_ok c -> GetHost c = Returns (u, c') -> cursor_ok c'.
Proof.
  unfold cursor_ok, GetHost. intros Hmax Hok.
  destruct (Z.eqb_spec (len (hosts c)) 0) as [H0|Hn0].
  - intros [= _ <-]. exact Hok.
  - destruct (index _ _); [discriminate|]. intros [= _ <-]. simpl.
    pose proof (len_nonneg (hosts c)) as Hnn.
    unfold GoInt.add. rewrite GoIntFacts.wrap_small
      by (unfold GoInt.min_int, GoInt.max_int in *; lia).
    unfold GoInt.rem. rewrite Z.rem_mod_nonneg by lia.
    pose proof (Z.mod_pos_bound (nextIndex c + 1) (len (hosts c))). lia.
Qed.

Lemma AddHost_cursor_ok c x : cursor_ok c -> cursor_ok (AddHost c x).
Proof.
  unfold cursor_ok, AddHost. simpl. rewrite len_app.
  pose proof (len_nonneg (hosts c)). change (len [x]) with 1. lia.
Qed.

Lemma index_app_l {A : Type} (l1 l2 : list A) (i : Z) :
  0 <= i < len l1 -> index (l1 ++ l2) i = index l1 i.
Proof.
  intros Hi. unfold index. rewrite len_app.
  pose proof (len_nonneg l2) as Hnn.
  replace (0 <=? i) with true by (symmetry; apply Z.leb_le; lia).
  replace (i <? len l1 + len l2) with true by (symmetry; apply Z.ltb_lt; lia).
  replace (i <? len l1) with true by (symmetry; apply Z.ltb_lt; lia).
  simpl. rewrite nth_error_app1 by (unfold len in Hi; lia). reflexivity.
Qed.

End ClusterFacts.

(** ** The claims about the cluster *)

Section ClusterClaims.

Local Open Scope list_scope.
Local Open Scope Z_scope.

(** C1. In a registry created fresh and populated with N >= 1 endpoints,
    the k-th call of [GetHost] (counted from 1) returns the endpoint at
    position (k-1) mod N, and 2N successive calls return the whole
    sequence twice, in insertion order. The length of a Go slice is an
    [int], which is the bound on [hs]. *)
Theorem GetHost_round_robin (hs : list (ptr URI)) :
  hs <> [] ->
  len hs <= GoInt.max_int ->
  (forall k : nat, (1 <= k)%nat ->
     exists uris c1 u c2,
       calls (k - 1) (populate hs) = Returns (uris, c1) /\
       nth_error hs ((k - 1) mod List.length hs) = Some u /\
       GetHost c1 = Returns (u, c2)) /\
  (exists c', calls (2 * List.length hs) (populate hs) = Returns (hs ++ hs, c')).
Proof.
  intros Hne Hmax.
  assert (Hpos : (0 < List.length hs)%nat)
    by (destruct hs; [congruence | simpl; lia]).
  rewrite populate_eq. split.
  - intros k Hk.
    assert (Hlt : ((k - 1) mod List.length hs < List.length hs)%nat)
      by (apply Nat.mod_upper_bound; lia).
    exists (rotation hs 0 (k - 1)).
    exists {| hosts := hs;
              nextIndex := Z.of_nat ((0 + (k - 1)) mod List.length hs) |}.
    exists (nth ((k - 1) mod List.length hs) hs nil').
    eexists. split; [| split].
    + apply (calls_from hs Hmax (k - 1) 0 Hpos).
    + now apply nth_error_nth'.
    + simpl. apply GetHost_at; [exact Hmax | now apply nth_error_nth'].
  - eexists.
    pose proof (calls_from hs Hmax (2 * List.length hs) 0 Hpos) as Hcalls.
    change (Z.of_nat 0) with 0 in Hcalls. rewrite Hcalls. clear Hcalls.
    replace (2 * List.length hs)%nat with (List.length hs + List.length hs)%nat
      by lia.
    rewrite rotation_twice. reflexivity.
Qed.

Lemma GetHost_round_robin_witness :
  [Some uri_a; Some uri_b; Some uri_c] <> [] /\
  len [Some uri_a; Some uri_b; Some uri_c] <= GoInt.max_int /\
  (exists c',
     calls 6 (populate [Some uri_a; Some uri_b; Some uri_c]) =
     Returns ([Some uri_a; Some uri_b; Some uri_c;
               Some uri_a; Some uri_b; Some uri_c], c')).
Proof.
  assert (Hne : [Some uri_a; Some uri_b; Some uri_c] <> []) by discriminate.
  assert (Hmax : len [Some uri_a; Some uri_b; Some uri_c] <= GoInt.max_int)
    by (vm_compute; discriminate).
  split; [exact Hne | split; [exact Hmax |]].
  exact (proj2 (GetHost_round_robin _ Hne Hmax)).
Defined.

(** C8. [GetHost] on a registry with no endpoint returns [nil], whatever
    the cursor is; it does not panic and leaves the registry alone. *)
Theorem GetHost_empty (n : Z) :
  GetHost {| hosts := []; nextIndex := n |} =
  Returns (nil', {| hosts := []; nextIndex := n |}).
Proof. reflexivity. Qed.

(** C10. [AddHost] appends the endpoint to the end of the sequence and
    leaves the cursor where it was, and [RemoveHost] changes neither the
    sequence nor the cursor. At a valid cursor the call of [GetHost] that
    follows an [AddHost] returns the endpoint it would have returned
    without it; in an empty registry it returns the endpoint just added. *)
Theorem AddHost_keeps_cursor (c : Cluster) (x : ptr URI) :
  hosts (AddHost c x) = hosts c ++ [x] /\
  nextIndex (AddHost c x) = nextIndex c /\
  RemoveHost c x = c /\
  (0 <= nextIndex c < len (hosts c) ->
   returned (GetHost (AddHost c x)) = returned (GetHost c)) /\
  (hosts c = [] -> nextIndex c = 0 ->
   returned (GetHost (AddHost c x)) = Returns x).
Proof.
  repeat split.
  - intros Hi. unfold GetHost. simpl. rewrite len_app.
    assert (H1 : len [x] = 1) by reflexivity. rewrite H1.
    destruct (Z.eqb_spec (len (hosts c) + 1) 0) as [|_]; [lia|].
    destruct (Z.eqb_spec (len (hosts c)) 0) as [|_]; [lia|].
    rewrite (GoIntFacts.rem_small (nextIndex c) (len (hosts c) + 1)) by lia.
    rewrite (GoIntFacts.rem_small (nextIndex c) (len (hosts c))) by lia.
    rewrite index_app_l by lia.
    now destruct (index (hosts c) (nextIndex c)).
  - intros Hnil H0. destruct c as [hs n]. simpl in *. subst. reflexivity.
Qed.

Lemma AddHost_keeps_cursor_witness :
  0 <= nextIndex {| hosts := [Some uri_a; Some uri_b]; nextIndex := 1 |}
    < len (hosts {| hosts := [Some uri_a; Some uri_b]; nextIndex := 1 |}) /\
  returned (GetHost (AddHost {| hosts := [Some uri_a; Some uri_b];
                                nextIndex := 1 |} (Some uri_c))) =
  Returns (Some uri_b).
Proof.
  assert (Hi : 0 <= nextIndex {| hosts := [Some uri_a; Some uri_b];
                                 nextIndex := 1 |}
               < len (hosts {| hosts := [Some uri_a; Some uri_b];
                               nextIndex := 1 |}))
    by (unfold len; simpl; lia).
  split; [exact Hi|].
  destruct (AddHost_keeps_cursor
              {| hosts := [Some uri_a; Some uri_b]; nextIndex := 1 |}
              (Some uri_c)) as (_ & _ & _ & Hnext & _).
  rewrite (Hnext Hi). reflexivity.
Defined.

(** C2. What the code does where the claim asks for a removal: the
    endpoint stays in the registry and is handed out again. With the
    single endpoint [uri_a] removed, the registry is not empty and the
    next call returns [uri_a], not [nil]; with [uri_a] removed while it is
    next up in a registry of three, the next call returns [uri_a], not the
    endpoint [uri_b] that followed it. *)
Theorem RemoveHost_removes_nothing :
  hosts (RemoveHost (populate [Some uri_a]) (Some uri_a)) = [Some uri_a] /\
  returned (GetHost (RemoveHost (populate [Some uri_a]) (Some uri_a))) =
    Returns (Some uri_a) /\
  returned
    (GetHost (RemoveHost (populate [Some uri_a; Some uri_b; Some uri_c])
                         (Some uri_a))) = Returns (Some uri_a).
Proof. repeat split. Qed.

End ClusterClaims.

(** ** Properties of the client *)

Lemma append_empty_r (s : string) : s ++ EmptyString = s.
Proof. induction s as [|ch s IH]; simpl; [reflexivity | now rewrite IH]. Qed.

Section ClientFacts.

Variable env : Env.

Lemma Sprintf_server_error (response : Response) (msg : string) :
  Sprintf "Server error (%d) %s: %s"
          [Int (StatusCode response); Str (Status response); Str msg] =
  "Server error (" ++ decimal (StatusCode response) ++ ") "
  ++ Status response ++ ": " ++ msg.
Proof.
  cbn. rewrite (append_empty_r msg). reflexivity.
Qed.

Lemma Header_Set_protobuf :
  Header_Set (Header_Set [] "Content-Type" "application/x-protobuf")
             "Accept" "application/x-protobuf" = protobuf_headers.
Proof. reflexivity. Qed.

(** [httpRequest], one step at a time: the selection, the construction
    of the request, the exchange and its classification. *)
Lemma httpRequest_run method path data needsResponse w :
  httpRequest env method path data needsResponse w =
  match GetHost (cluster w) with
  | Panics => Panics
  | Returns (None, c') =>
      Returns ((nil', Some ErrorEmptyCluster),
               {| cluster := c'; wire := wire w |})
  | Returns (Some uri, c') =>
      let url := GetNormalizedAddress uri ++ path in
      match NewRequest_check env method url with
      | Some err =>
          Returns ((nil', Some err), {| cluster := c'; wire := wire w |})
      | None =>
          let request := outgoing method url (bytes_NewReader data) in
          Returns (classify (RoundTrip env (wire w) request) needsResponse,
                   {| cluster := c';
                      wire := (wire w ++ [request])%list |})
      end
  end.
Proof.
  unfold httpRequest, bind, cluster_GetHost.
  destruct (GetHost (cluster w)) as [|[[uri|] c']]; try reflexivity.
  unfold http_NewRequest. cbv zeta.
  destruct (NewRequest_check env method _) as [err|]; [reflexivity|].
  unfold bind, client_Do, outgoing. cbn [Method URL ReqHeader ReqBody wire cluster].
  rewrite Header_Set_protobuf.
  destruct (RoundTrip env _ _) as [response|err]; [|reflexivity].
  unfold classify, ioutil_ReadAll, ret. rewrite Sprintf_server_error.
  destruct ((StatusCode response <? 200)%Z || (StatusCode response >=? 300)%Z)%bool.
  - destruct (BodyErr response); [reflexivity|].
    destruct (String.eqb (Body response) database_already_exists);
      [reflexivity|].
    destruct (String.eqb (Body response) frame_already_exists);
      reflexivity.
  - destruct needsResponse; [|reflexivity].
    destruct (BodyErr response); reflexivity.
Qed.

Lemma non_2xx_test (response : Response) :
  non_2xx response ->
  ((StatusCode response <? 200)%Z || (StatusCode response >=? 300)%Z)%bool
  = true.
Proof.
  unfold non_2xx. intros [H|H].
  - apply orb_true_iff. left. apply Z.ltb_lt. exact H.
  - apply orb_true_iff. right. apply Z.geb_le. lia.
Qed.

(** The classification of a non-2xx response whose body was read. *)
Lemma classify_non_2xx response needsResponse :
  non_2xx response -> BodyErr response = None ->
  classify (inl response) needsResponse =
  (nil',
   Some (if String.eqb (Body response) database_already_exists
         then ErrorDatabaseExists
         else if String.eqb (Body response) frame_already_exists
              then ErrorFrameExists
              else PilosaError (server_error_message response))).
Proof.
  intros H2xx Hread. unfold classify.
  rewrite (non_2xx_test _ H2xx), Hread.
  destruct (String.eqb _ database_already_exists); [reflexivity|].
  destruct (String.eqb _ frame_already_exists); reflexivity.
Qed.

Lemma httpRequest_answered method path data needsResponse w response :
  answered env w method path data response ->
  exists w',
    httpRequest env method path data needsResponse w =
    Returns (classify (inl response) needsResponse, w').
Proof.
  intros (uri & c' & Hsel & Hnew & Hrt).
  rewrite httpRequest_run, Hsel. cbv zeta. rewrite Hnew, Hrt.
  eexists. reflexivity.
Qed.

End ClientFacts.

Ltac unfold_operation :=
  cbv [perform Query QueryWithOptions CreateDatabase CreateFrame
       EnsureDatabaseExists EnsureFrameExists DeleteDatabase DeleteFrame
       Schema_ createOrDeleteDatabase createOrDeleteFrame bind ret];
  rewrite ?httpRequest_run.

Ltac case_analysis :=
  repeat match goal with
         | |- context [match ?x with _ => _ end] =>
             lazymatch x with
             | context [match _ with _ => _ end] => fail
             | _ => destruct x
             end
         end.

Section Dispatch.

Variable env : Env.

Lemma Sprintf_database_body (database : Database) :
  Sprintf ("{" ++ dq ++ "db" ++ dq ++ ": " ++ dq ++ "%s" ++ dq ++ ", "
           ++ dq ++ "options" ++ dq ++ ": {" ++ dq ++ "columnLabel" ++ dq
           ++ ": " ++ dq ++ "%s" ++ dq ++ "}}")
          [Str (Database_name database);
           Str (columnLabel (Database_options database))] =
  database_body database.
Proof. reflexivity. Qed.

Lemma Sprintf_frame_body (frame : Frame) :
  Sprintf ("{" ++ dq ++ "db" ++ dq ++ ": " ++ dq ++ "%s" ++ dq ++ ", "
           ++ dq ++ "frame" ++ dq ++ ": " ++ dq ++ "%s" ++ dq ++ ", "
           ++ dq ++ "options" ++ dq ++ ": {" ++ dq ++ "rowLabel" ++ dq
           ++ ": " ++ dq ++ "%s" ++ dq ++ "}}")
          [Str (Database_name (Frame_database frame));
           Str (Frame_name frame);
           Str (rowLabel (Frame_options frame))] =
  frame_body frame.
Proof. reflexivity. Qed.

(** An empty selection ends every operation with [ErrorEmptyCluster],
    nothing sent. *)
Lemma perform_no_host (op : Operation) (w : World) (c' : Cluster) :
  GetHost (cluster w) = Returns (nil', c') ->
  perform env op w =
  Returns (Some ErrorEmptyCluster, {| cluster := c'; wire := wire w |}).
Proof.
  intros Hsel. destruct op; unfold_operation; rewrite Hsel; reflexivity.
Qed.

(** Every operation selects an endpoint once and sends at most one
    request, which carries the protobuf headers. *)
Lemma perform_one_selection (op : Operation) (w : World) addr c' :
  GetHost (cluster w) = Returns (addr, c') ->
  match perform env op w with
  | Panics => False
  | Returns (_, w') =>
      cluster w' = c' /\
      (wire w' = wire w \/
       exists request,
         wire w' = (wire w ++ [request])%list /\
         ReqHeader request = protobuf_headers)
  end.
Proof.
  intros Hsel.
  destruct op; unfold_operation; rewrite Hsel; cbv beta iota zeta;
    case_analysis; simpl; split; try reflexivity;
      first [now left | right; eexists; split; reflexivity].
Qed.

End Dispatch.

(** ** The claims about the client *)

Lemma is_error_iff (err : option error) (e : error) :
  e = ErrorEmptyCluster \/ e = ErrorDatabaseExists \/ e = ErrorFrameExists ->
  (is_error err e = true <-> err = Some e).
Proof.
  intros [-> | [-> | ->]]; destruct err as [[]|]; simpl; split;
    (reflexivity || discriminate || congruence).
Qed.

Lemma perform_create_answered env op method path body w response :
  is_create op = true ->
  admin_call op = Some (method, path, body) ->
  answered env w method path (Some body) response ->
  exists w',
    perform env op w = Returns (snd (classify (inl response) false), w').
Proof.
  intros Hc Hcall Hans.
  destruct op; try discriminate Hc; simpl in Hcall;
    injection Hcall as <- <- <-;
    destruct (httpRequest_answered env _ _ _ false w response Hans)
      as [w' Hrun];
    exists w'; cbv [perform CreateDatabase CreateFrame createOrDeleteDatabase
                    createOrDeleteFrame bind ret];
    rewrite ?Sprintf_database_body, ?Sprintf_frame_body, Hrun; reflexivity.
Qed.

Lemma conflict_non_2xx (body : string) : non_2xx (conflict body).
Proof. right. simpl. lia. Qed.

Lemma answered_world_a response method path data :
  answered (env_answering response) world_a method path data response.
Proof. exists uri_a. eexists. repeat split. Qed.

(** C3, counterexample: [CreateDatabase] answered by 409 with the body
    [frame already exists], which is not the database body, returns
    [ErrorFrameExists] and not the generic error. *)
Lemma create_classification_counterexample :
  (exists w',
     perform (env_answering (conflict frame_already_exists))
             (OpCreateDatabase database_x) world_a =
     Returns (Some ErrorFrameExists, w')) /\
  ~ create_classification_as_stated.
Proof.
  split; [eexists; vm_compute; reflexivity|].
  intros H.
  destruct (H (env_answering (conflict frame_already_exists))
              (OpCreateDatabase database_x) "POST" "/db"
              (database_body database_x) world_a
              (conflict frame_already_exists)
              eq_refl eq_refl (answered_world_a _ _ _ _)
              (conflict_non_2xx _) eq_refl)
    as (err & w' & Hrun & _ & Hother).
  vm_compute in Hrun. injection Hrun as <- _.
  assert (Hne : Body (conflict frame_already_exists)
                <> database_already_exists) by (vm_compute; discriminate).
  specialize (Hother Hne). discriminate Hother.
Qed.

(** C3, amended. On a create call answered by a non-2xx status whose body
    is read, the body [database already exists\n] gives
    [ErrorDatabaseExists], the body [frame already exists\n] gives
    [ErrorFrameExists], and every other body gives the generic error whose
    message carries the numeric status, the status text and the body. *)
Theorem create_classification env op method path body w response :
  is_create op = true ->
  admin_call op = Some (method, path, body) ->
  answered env w method path (Some body) response ->
  non_2xx response ->
  BodyErr response = None ->
  exists err w',
    perform env op w = Returns (err, w') /\
    (Body response = database_already_exists ->
     err = Some ErrorDatabaseExists) /\
    (Body response = frame_already_exists ->
     err = Some ErrorFrameExists) /\
    (Body response <> database_already_exists ->
     Body response <> frame_already_exists ->
     err = Some (PilosaError
                   ("Server error (" ++ decimal (StatusCode response) ++ ") "
                    ++ Status response ++ ": " ++ Body response))).
Proof.
  intros Hc Hcall Hans H2xx Hread.
  destruct (perform_create_answered env op method path body w response
                                    Hc Hcall Hans) as [w' Hrun].
  rewrite (classify_non_2xx response false H2xx Hread) in Hrun.
  simpl in Hrun. eexists. exists w'. split; [exact Hrun|].
  repeat split.
  - intros ->. reflexivity.
  - intros ->. reflexivity.
  - intros Hdb Hfr.
    apply String.eqb_neq in Hdb. apply String.eqb_neq in Hfr.
    rewrite Hdb, Hfr. reflexivity.
Qed.

Lemma create_classification_witness :
  exists err w',
    perform (env_answering (conflict database_already_exists))
            (OpCreateDatabase database_x) world_a = Returns (err, w') /\
    err = Some ErrorDatabaseExists.
Proof.
  destruct (create_classification
              (env_answering (conflict database_already_exists))
              (OpCreateDatabase database_x) "POST" "/db"
              (database_body database_x) world_a
              (conflict database_already_exists))
    as (err & w' & Hrun & Hdb & _).
  - reflexivity.
  - reflexivity.
  - apply answered_world_a.
  - right. simpl. lia.
  - reflexivity.
  - exists err, w'. split; [exact Hrun | apply Hdb; reflexivity].
Defined.

(** C4, counterexample: the same 409 response with the body
    [frame already exists] makes [CreateDatabase], on the path [/db],
    return [ErrorFrameExists] as well. *)
Lemma frame_classification_counterexample :
  (exists w',
     CreateDatabase (env_answering (conflict frame_already_exists))
                    database_x world_a =
     Returns (Some ErrorFrameExists, w')) /\
  ~ frame_classification_as_stated.
Proof.
  split; [eexists; vm_compute; reflexivity|].
  intros H.
  destruct (H (env_answering (conflict frame_already_exists)) world_a
              (conflict frame_already_exists)
              (conflict_non_2xx _) eq_refl eq_refl) as [_ Hdb].
  destruct (Hdb database_x (answered_world_a _ _ _ _))
    as (err & w' & Hrun & Hne).
  vm_compute in Hrun. injection Hrun as <- _. now apply Hne.
Qed.

(** C4, amended. A non-2xx response whose body is exactly
    [frame already exists\n] is classified as [ErrorFrameExists], a value
    other than [ErrorDatabaseExists], by every call, whatever its method,
    its path and its body: the mapping looks at the body of the response
    only. In particular [CreateFrame] returns [ErrorFrameExists]. *)
Theorem frame_classification env w response :
  non_2xx response ->
  BodyErr response = None ->
  Body response = frame_already_exists ->
  (forall method path data needsResponse,
      answered env w method path data response ->
      exists w',
        httpRequest env method path data needsResponse w =
        Returns ((nil', Some ErrorFrameExists), w')) /\
  (forall frame,
      answered env w "POST" "/frame" (Some (frame_body frame)) response ->
      exists w',
        CreateFrame env frame w = Returns (Some ErrorFrameExists, w')) /\
  ErrorFrameExists <> ErrorDatabaseExists.
Proof.
  intros H2xx Hread Hbody.
  assert (Hclass : forall needsResponse,
             classify (inl response) needsResponse =
             (nil', Some ErrorFrameExists)).
  { intros nr. rewrite (classify_non_2xx response nr H2xx Hread), Hbody.
    reflexivity. }
  repeat split.
  - intros method path data nr Hans.
    destruct (httpRequest_answered env method path data nr w response Hans)
      as [w' Hrun].
    exists w'. now rewrite Hrun, Hclass.
  - intros frame Hans.
    destruct (perform_create_answered env (OpCreateFrame frame) _ _ _ w
                response eq_refl eq_refl Hans) as [w' Hrun].
    exists w'.
    change (CreateFrame env frame w) with (perform env (OpCreateFrame frame) w).
    now rewrite Hrun, Hclass.
  - discriminate.
Qed.

Lemma frame_classification_witness :
  exists w',
    CreateFrame (env_answering (conflict frame_already_exists))
                frame_y world_a = Returns (Some ErrorFrameExists, w').
Proof.
  destruct (frame_classification
              (env_answering (conflict frame_already_exists)) world_a
              (conflict frame_already_exists)) as (_ & Hframe & _).
  - right. simpl. lia.
  - reflexivity.
  - reflexivity.
  - apply (Hframe frame_y). apply answered_world_a.
Defined.

Lemma perform_panics env op w :
  GetHost (cluster w) = Panics -> perform env op w = Panics.
Proof.
  intros Hsel. destruct op; unfold_operation; rewrite Hsel; reflexivity.
Qed.

(** C5, counterexample: [CreateDatabase] sends its JSON body under the
    headers [application/x-protobuf], the very headers of the binary body
    of a query. *)
Lemma headers_match_encoding_counterexample :
  (exists err w',
     perform (env_answering ok) (OpCreateDatabase database_x) world_a =
     Returns (err, w') /\
     wire w' =
     [{| Method := "POST"; URL := "http://a:10101/db";
         ReqHeader := [("Content-Type", "application/x-protobuf");
                       ("Accept", "application/x-protobuf")];
         ReqBody := database_body database_x |}]) /\
  ~ headers_match_encoding_as_stated.
Proof.
  split; [do 2 eexists; split; vm_compute; reflexivity|].
  intros [select H].
  assert (Hjson : select protobuf_headers = JSON).
  { apply (H (env_answering ok) (OpCreateDatabase database_x) JSON world_a
             None
             {| cluster := {| hosts := [Some uri_a]; nextIndex := 0 |};
                wire := [outgoing "POST" "http://a:10101/db"
                                  (database_body database_x)] |}
             (outgoing "POST" "http://a:10101/db"
                       (database_body database_x)));
      vm_compute; reflexivity. }
  assert (Hbin : select protobuf_headers = Binary).
  { apply (H (env_answering ok) (OpQuery database_x "Bitmap(id=1)") Binary
             world_a None
             {| cluster := {| hosts := [Some uri_a]; nextIndex := 0 |};
                wire := [outgoing "POST" "http://a:10101/query"
                                  "xBitmap(id=1)"] |}
             (outgoing "POST" "http://a:10101/query" "xBitmap(id=1)"));
      vm_compute; reflexivity. }
  congruence.
Qed.

(** C5, amended. Every request that an operation sends carries
    [Content-Type: application/x-protobuf] and
    [Accept: application/x-protobuf], whatever the encoding of its body:
    the protobuf envelope of a query, the JSON text of an administrative
    call and the bodyless schema fetch alike. *)
Theorem headers_always_protobuf env op w err w' :
  perform env op w = Returns (err, w') ->
  wire w' = wire w \/
  exists request,
    wire w' = (wire w ++ [request])%list /\
    Header_Get (ReqHeader request) "Content-Type" = "application/x-protobuf" /\
    Header_Get (ReqHeader request) "Accept" = "application/x-protobuf".
Proof.
  intros Hrun.
  destruct (GetHost (cluster w)) as [|[addr c']] eqn:Hsel.
  - rewrite (perform_panics env op w Hsel) in Hrun. discriminate.
  - pose proof (perform_one_selection env op w addr c' Hsel) as Hone.
    rewrite Hrun in Hone. destruct Hone as [_ [Hsame|(request & Hw & Hh)]].
    + now left.
    + right. exists request. rewrite Hh. repeat split. exact Hw.
Qed.

Lemma headers_always_protobuf_witness :
  exists request,
    [outgoing "POST" "http://a:10101/db" (database_body database_x)] =
    ([] ++ [request])%list /\
    Header_Get (ReqHeader request) "Content-Type" = "application/x-protobuf" /\
    Header_Get (ReqHeader request) "Accept" = "application/x-protobuf".
Proof.
  destruct (headers_always_protobuf
              (env_answering ok) (OpCreateDatabase database_x) world_a None
              {| cluster := {| hosts := [Some uri_a]; nextIndex := 0 |};
                 wire := [outgoing "POST" "http://a:10101/db"
                                   (database_body database_x)] |})
    as [Hsame | Hsent].
  - vm_compute. reflexivity.
  - discriminate Hsame.
  - exact Hsent.
Defined.

(** C6. An operation invoked while the registry is empty returns
    [ErrorEmptyCluster] and leaves the state as it was: nothing is put on
    the network. More generally every operation selects an endpoint
    exactly once, before the exchange: the cluster it leaves is the one
    that a single [GetHost] leaves, a [nil] selection ends the call with
    [ErrorEmptyCluster] and nothing sent, and otherwise at most one
    request is sent. *)
Theorem empty_cluster_no_io env op w :
  (hosts (cluster w) = [] ->
   perform env op w = Returns (Some ErrorEmptyCluster, w)) /\
  (forall c',
      GetHost (cluster w) = Returns (nil', c') ->
      perform env op w =
      Returns (Some ErrorEmptyCluster, {| cluster := c'; wire := wire w |})) /\
  (forall addr c',
      GetHost (cluster w) = Returns (addr, c') ->
      exists err w',
        perform env op w = Returns (err, w') /\
        cluster w' = c' /\
        (wire w' = wire w \/
         exists request, wire w' = (wire w ++ [request])%list)).
Proof.
  repeat split.
  - intros Hempty.
    assert (Hsel : GetHost (cluster w) = Returns (nil', cluster w))
      by (unfold GetHost; rewrite Hempty; reflexivity).
    rewrite (perform_no_host env op w _ Hsel). now destruct w.
  - intros c' Hsel. now apply perform_no_host.
  - intros addr c' Hsel.
    pose proof (perform_one_selection env op w addr c' Hsel) as Hone.
    destruct (perform env op w) as [|[err w']]; [contradiction|].
    exists err, w'. destruct Hone as [Hc [Hsame|(request & Hw & _)]].
    + repeat split; [exact Hc | now left].
    + repeat split; [exact Hc | right; now exists request].
Qed.

Lemma empty_cluster_no_io_witness :
  hosts (cluster {| cluster := NewCluster; wire := [] |}) = [] /\
  perform (env_answering ok) (OpQuery database_x "Bitmap(id=1)")
          {| cluster := NewCluster; wire := [] |} =
  Returns (Some ErrorEmptyCluster, {| cluster := NewCluster; wire := [] |}).
Proof.
  split; [reflexivity|].
  apply (proj1 (empty_cluster_no_io (env_answering ok)
                  (OpQuery database_x "Bitmap(id=1)")
                  {| cluster := NewCluster; wire := [] |})).
  reflexivity.
Defined.

(** C7. The administrative calls are wire-exact: a create is a [POST] and
    a delete a [DELETE], to [/db] with the body
    [{"db": "<name>", "options": {"columnLabel": "<label>"}}] and to
    [/frame] with the body
    [{"db": "<name>", "frame": "<name>", "options": {"rowLabel": "<label>"}}],
    the names and labels being those of the value given by the caller.
    Once an endpoint is selected and the request accepted, exactly this
    request, addressed to the normalized address of the endpoint, is what
    the call puts on the network. *)
Theorem admin_calls_wire_exact env op method path body w uri c' :
  admin_call op = Some (method, path, body) ->
  GetHost (cluster w) = Returns (Some uri, c') ->
  NewRequest_check env method (GetNormalizedAddress uri ++ path) = None ->
  exists err,
    perform env op w =
    Returns (err,
             {| cluster := c';
                wire := (wire w ++
                         [{| Method := method;
                             URL := GetNormalizedAddress uri ++ path;
                             ReqHeader := protobuf_headers;
                             ReqBody := body |}])%list |}).
Proof.
  intros Hcall Hsel Hnew.
  destruct op; try discriminate Hcall; simpl in Hcall;
    injection Hcall as <- <- <-;
    unfold_operation;
    rewrite ?Sprintf_database_body, ?Sprintf_frame_body, Hsel;
    cbv beta iota zeta; rewrite Hnew;
    case_analysis; eexists; reflexivity.
Qed.

Lemma admin_calls_wire_exact_witness :
  exists err,
    perform (env_answering ok) (OpDeleteFrame frame_y) world_a =
    Returns (err,
             {| cluster := {| hosts := [Some uri_a]; nextIndex := 0 |};
                wire :=
                  [{| Method := "DELETE";
                      URL := "http://a:10101/frame";
                      ReqHeader := protobuf_headers;
                      ReqBody :=
                        "{" ++ dq ++ "db" ++ dq ++ ": " ++ dq ++ "x" ++ dq
                        ++ ", " ++ dq ++ "frame" ++ dq ++ ": " ++ dq ++ "y"
                        ++ dq ++ ", " ++ dq ++ "options" ++ dq ++ ": {"
                        ++ dq ++ "rowLabel" ++ dq ++ ": " ++ dq ++ "id" ++ dq
                        ++ "}}" |}] |}).
Proof.
  apply (admin_calls_wire_exact (env_answering ok) (OpDeleteFrame frame_y)
           "DELETE" "/frame" (frame_body frame_y) world_a uri_a
           {| hosts := [Some uri_a]; nextIndex := 0 |}).
  - reflexivity.
  - reflexivity.
  - reflexivity.
Defined.

(** C9. [EnsureDatabaseExists] is [CreateDatabase] with
    [ErrorDatabaseExists] absorbed: it leaves the state that the create
    leaves, it returns no error exactly when the create returns none or
    returns [ErrorDatabaseExists], and it returns every other error of the
    create as it is, [ErrorFrameExists] included. [EnsureFrameExists] is
    the same over [CreateFrame] and [ErrorFrameExists]. *)
Theorem Ensure_is_create_absorbing env w :
  (forall database err w',
      CreateDatabase env database w = Returns (err, w') ->
      exists err',
        EnsureDatabaseExists env database w = Returns (err', w') /\
        (err' = None <-> err = None \/ err = Some ErrorDatabaseExists) /\
        (err <> Some ErrorDatabaseExists -> err' = err)) /\
  (forall frame err w',
      CreateFrame env frame w = Returns (err, w') ->
      exists err',
        EnsureFrameExists env frame w = Returns (err', w') /\
        (err' = None <-> err = None \/ err = Some ErrorFrameExists) /\
        (err <> Some ErrorFrameExists -> err' = err)) /\
  (forall database,
      CreateDatabase env database w = Panics ->
      EnsureDatabaseExists env database w = Panics) /\
  (forall frame,
      CreateFrame env frame w = Panics ->
      EnsureFrameExists env frame w = Panics).
Proof.
  split; [|split; [|split]].
  - intros database err w' Hrun.
    unfold EnsureDatabaseExists, bind. rewrite Hrun.
    destruct (is_error err ErrorDatabaseExists) eqn:His.
    + apply is_error_iff in His; [|tauto]. subst err.
      exists None. repeat split; [tauto | congruence].
    + exists err. repeat split; try tauto.
      intros [->| ->]; [reflexivity | discriminate His].
  - intros frame err w' Hrun.
    unfold EnsureFrameExists, bind. rewrite Hrun.
    destruct (is_error err ErrorFrameExists) eqn:His.
    + apply is_error_iff in His; [|tauto]. subst err.
      exists None. repeat split; [tauto | congruence].
    + exists err. repeat split; try tauto.
      intros [->| ->]; [reflexivity | discriminate His].
  - intros database Hrun. unfold EnsureDatabaseExists, bind.
    now rewrite Hrun.
  - intros frame Hrun. unfold EnsureFrameExists, bind. now rewrite Hrun.
Qed.

Lemma Ensure_is_create_absorbing_witness :
  exists w',
    CreateDatabase (env_answering (conflict database_already_exists))
                   database_x world_a =
    Returns (Some ErrorDatabaseExists, w') /\
    EnsureDatabaseExists (env_answering (conflict database_already_exists))
                         database_x world_a = Returns (None, w').
Proof.
  eexists. split; [vm_compute; reflexivity|].
  destruct (proj1 (Ensure_is_create_absorbing
                     (env_answering (conflict database_already_exists))
                     world_a)
                  database_x (Some ErrorDatabaseExists) _ eq_refl)
    as (err' & Hrun & Hiff & _).
  rewrite Hrun. f_equal. f_equal. apply Hiff. now right.
Defined.

(** ** More about the cluster *)

Section ClusterMore.

Local Open Scope list_scope.
Local Open Scope Z_scope.

Lemma deref_all_pointers (us arr : list URI) :
  deref_all (map Some us) arr = Returns (arr ++ us).
Proof.
  revert arr. induction us as [|u us IH]; intros arr; simpl.
  - now rewrite app_nil_r.
  - rewrite IH, <- app_assoc. reflexivity.
Qed.

Lemma deref_all_nil (l : list (ptr URI)) (arr : list URI) :
  In nil' l -> deref_all l arr = Panics.
Proof.
  revert arr. induction l as [|[u|] l IH]; intros arr Hin; simpl.
  - destruct Hin.
  - destruct Hin as [Heq|Hin]; [discriminate | now apply IH].
  - reflexivity.
Qed.

Lemma pointers_or_nil (l : list (ptr URI)) :
  In nil' l \/ exists us, l = map Some us.
Proof.
  induction l as [|[u|] l IH].
  - right. now exists [].
  - destruct IH as [Hin|[us ->]].
    + left. now right.
    + right. now exists (u :: us).
  - left. now left.
Qed.

Lemma map_Some_no_nil (us : list URI) : ~ In nil' (map Some us).
Proof.
  intros Hin. apply in_map_iff in Hin. destruct Hin as (u & Hu & _).
  discriminate Hu.
Qed.

Lemma map_Some_injective (us vs : list URI) :
  map Some us = map Some vs -> us = vs.
Proof.
  revert vs. induction us as [|u us IH]; intros [|v vs] H; simpl in H;
    try discriminate; [reflexivity|].
  injection H as -> H. f_equal. now apply IH.
Qed.

(** X1. [GetHosts] returns the addresses of the cluster, dereferenced,
    in the order they were added, exactly when no host is [nil]; it
    panics exactly when some host is [nil]. *)
Theorem GetHosts_lists_hosts (c : Cluster) :
  (GetHosts c = Panics <-> In nil' (hosts c)) /\
  (forall us, GetHosts c = Returns us <-> hosts c = map Some us).
Proof.
  unfold GetHosts.
  destruct (pointers_or_nil (hosts c)) as [Hin|[us Hus]].
  - rewrite (deref_all_nil _ [] Hin). split.
    + tauto.
    + intros us. split; [discriminate|].
      intros Hus. rewrite Hus in Hin. now apply map_Some_no_nil in Hin.
  - rewrite Hus, deref_all_pointers. simpl. split.
    + split; [discriminate|]. intros Hin. now apply map_Some_no_nil in Hin.
    + intros vs. split.
      * now intros [= ->].
      * intros H. now rewrite (map_Some_injective _ _ H).
Qed.

Lemma index_member {A : Type} (l : list A) (i : Z) (a : A) :
  index l i = Returns a -> In a l.
Proof.
  unfold index. destruct ((0 <=? i) && (i <? len l))%bool; [|discriminate].
  destruct (nth_error l (Z.to_nat i)) as [a'|] eqn:Hnth; [|discriminate].
  intros [= <-]. eapply nth_error_In. exact Hnth.
Qed.

(** X2. [GetHost] never changes the list of hosts, and what it returns
    is one of them: [nil] from an empty cluster, which it leaves as it
    is, and otherwise a member of the list. *)
Theorem GetHost_returns_a_host (c c' : Cluster) (u : ptr URI) :
  GetHost c = Returns (u, c') ->
  hosts c' = hosts c /\
  (hosts c = [] -> u = nil' /\ c' = c) /\
  (hosts c <> [] -> In u (hosts c)).
Proof.
  intros Hget. split; [exact (GetHost_keeps_hosts c u c' Hget)|].
  unfold GetHost in Hget.
  destruct (Z.eqb_spec (len (hosts c)) 0) as [H0|Hn0].
  - injection Hget as <- <-. split; [now split|].
    intros Hne. now apply len_zero_nil in H0.
  - split.
    + intros Hnil. rewrite Hnil in Hn0. now elim Hn0.
    + intros _. destruct (index _ _) as [|uri] eqn:Hidx; [discriminate|].
      injection Hget as <- _. eapply index_member. exact Hidx.
Qed.

Lemma GetHost_returns_a_host_witness :
  GetHost (populate [Some uri_a; Some uri_b]) =
  Returns (Some uri_a, {| hosts := [Some uri_a; Some uri_b];
                          nextIndex := 1 |}) /\
  In (Some uri_a) (hosts (populate [Some uri_a; Some uri_b])).
Proof.
  assert (Hget : GetHost (populate [Some uri_a; Some uri_b]) =
                 Returns (Some uri_a, {| hosts := [Some uri_a; Some uri_b];
                                         nextIndex := 1 |}))
    by reflexivity.
  split; [exact Hget|].
  destruct (GetHost_returns_a_host _ _ _ Hget) as (_ & _ & Hin).
  apply Hin. discriminate.
Defined.

(** A selection at a valid cursor does not panic. *)
Lemma GetHost_total (c : Cluster) :
  cursor_ok c -> exists u c', GetHost c = Returns (u, c').
Proof.
  unfold cursor_ok, GetHost. intros Hok.
  destruct (Z.eqb_spec (len (hosts c)) 0) as [H0|Hn0].
  - now exists nil', c.
  - pose proof (len_nonneg (hosts c)) as Hnn.
    rewrite GoIntFacts.rem_small by lia.
    assert (Hlt : (Z.to_nat (nextIndex c) < List.length (hosts c))%nat)
      by (unfold len in *; lia).
    destruct (nth_error (hosts c) (Z.to_nat (nextIndex c))) as [u|] eqn:Hnth.
    + pose proof (index_in_range _ _ _ Hnth) as Hidx.
      rewrite Z2Nat.id in Hidx by lia. rewrite Hidx. now eexists; eexists.
    + apply nth_error_None in Hnth. lia.
Qed.

Lemma cluster_calls_safe (l : list ClusterCall) :
  forall c,
    cursor_ok c ->
    len (hosts c) + len l <= GoInt.max_int ->
    exists c',
      cluster_calls l c = Returns c' /\ cursor_ok c' /\
      len (hosts c') <= len (hosts c) + len l.
Proof.
  induction l as [|call l IH]; intros c Hok Hmax.
  - exists c. split; [reflexivity | split; [exact Hok|]].
    unfold len. simpl. lia.
  - assert (Hl : len (call :: l) = 1 + len l)
      by (unfold len; cbn [List.length]; lia).
    rewrite Hl in *. pose proof (len_nonneg l) as Hnn.
    assert (Hstep : exists c1,
               cluster_call c call = Returns c1 /\ cursor_ok c1 /\
               len (hosts c1) <= len (hosts c) + 1).
    { destruct call as [x| |x]; simpl.
      - exists (AddHost c x). split; [reflexivity | split].
        + now apply AddHost_cursor_ok.
        + simpl. rewrite len_app. change (len [x]) with 1. lia.
      - destruct (GetHost_total c Hok) as (u & c1 & Hget).
        rewrite Hget. exists c1. split; [reflexivity | split].
        + apply (GetHost_cursor_ok c u c1); [lia | exact Hok | exact Hget].
        + rewrite (GetHost_keeps_hosts c u c1 Hget). lia.
      - exists c. split; [reflexivity | split; [exact Hok | lia]]. }
    destruct Hstep as (c1 & Hcall & Hok1 & Hlen1).
    destruct (IH c1 Hok1) as (c' & Hrun & Hok' & Hlen'); [lia|].
    exists c'. cbn [cluster_calls]. rewrite Hcall.
    split; [exact Hrun | split; [exact Hok' | lia]].
Qed.

(** X3. No sequence of [AddHost], [GetHost] and [RemoveHost] calls made
    on a new cluster panics, and the cursor it leaves is a valid index of
    the hosts (zero when there is none). The bound on the number of calls
    is that of the length of a Go slice. *)
Theorem cluster_calls_never_panic (l : list ClusterCall) :
  len l <= GoInt.max_int ->
  exists c,
    cluster_calls l NewCluster = Returns c /\
    0 <= nextIndex c /\
    (hosts c = [] -> nextIndex c = 0) /\
    (hosts c <> [] -> nextIndex c < len (hosts c)).
Proof.
  intros Hmax.
  destruct (cluster_calls_safe l NewCluster) as (c & Hrun & Hok & _).
  - unfold cursor_ok. simpl. lia.
  - simpl. exact Hmax.
  - exists c. unfold cursor_ok in Hok.
    split; [exact Hrun | split; [lia | split]].
    + intros Hnil. rewrite Hnil in Hok.
      change (len (@nil (ptr URI))) with 0 in Hok. lia.
    + intros Hne. destruct (hosts c) as [|h hs]; [congruence|].
      unfold len in *. cbn [List.length] in *. lia.
Qed.

Lemma cluster_calls_never_panic_witness :
  len [CallGetHost; CallAddHost (Some uri_a); CallGetHost;
       CallRemoveHost (Some uri_a); CallAddHost (Some uri_b); CallGetHost]
    <= GoInt.max_int /\
  exists c,
    cluster_calls
      [CallGetHost; CallAddHost (Some uri_a); CallGetHost;
       CallRemoveHost (Some uri_a); CallAddHost (Some uri_b); CallGetHost]
      NewCluster = Returns c /\
    0 <= nextIndex c.
Proof.
  assert (Hmax : len [CallGetHost; CallAddHost (Some uri_a); CallGetHost;
                      CallRemoveHost (Some uri_a); CallAddHost (Some uri_b);
                      CallGetHost] <= GoInt.max_int)
    by (vm_compute; discriminate).
  split; [exact Hmax|].
  destruct (cluster_calls_never_panic _ Hmax) as (c & Hrun & Hpos & _).
  exists c. split; [exact Hrun | exact Hpos].
Defined.

End ClusterMore.

Section ClusterCycle.

Local Open Scope list_scope.
Local Open Scope Z_scope.

Lemma rotation_nth (hs : list (ptr URI)) (i k n : nat) :
  (n < k)%nat ->
  nth n (rotation hs i k) nil' = nth ((i + n) mod List.length hs) hs nil'.
Proof.
  intros Hn. unfold rotation.
  rewrite (nth_indep _ nil' (nth ((i + 0) mod List.length hs) hs nil'))
    by now rewrite length_map, length_seq.
  rewrite (map_nth (fun j => nth ((i + j) mod List.length hs) hs nil')).
  now rewrite seq_nth by exact Hn.
Qed.

Lemma rotation_cycle (hs : list (ptr URI)) (i : nat) :
  (i < List.length hs)%nat ->
  rotation hs i (List.length hs) = skipn i hs ++ firstn i hs.
Proof.
  intros Hi. apply nth_ext with (d := nil') (d' := nil').
  - unfold rotation.
    rewrite length_map, length_seq, length_app, length_skipn, length_firstn.
    lia.
  - intros n Hn. unfold rotation in Hn. rewrite length_map, length_seq in Hn.
    rewrite (rotation_nth hs i _ n Hn).
    destruct (Nat.lt_ge_cases n (List.length hs - i)) as [Hlt|Hge].
    + rewrite app_nth1 by (rewrite length_skipn; exact Hlt).
      rewrite nth_skipn. now rewrite Nat.mod_small by lia.
    + rewrite app_nth2 by (rewrite length_skipn; exact Hge).
      rewrite length_skipn, nth_firstn.
      replace (n - (List.length hs - i) <? i)%nat with true
        by (symmetry; apply Nat.ltb_lt; lia).
      replace (i + n)%nat
        with ((n - (List.length hs - i)) + 1 * List.length hs)%nat by lia.
      rewrite Nat.Div0.mod_add. now rewrite Nat.mod_small by lia.
Qed.

(** X4. From any valid cursor, as many calls of [GetHost] as there are
    hosts return every host once, those from the cursor to the end and
    then those before the cursor, and leave the cluster exactly as it was:
    the rotation has period N wherever it starts. *)
Theorem GetHost_full_cycle (c : Cluster) :
  0 <= nextIndex c < len (hosts c) ->
  len (hosts c) <= GoInt.max_int ->
  calls (List.length (hosts c)) c =
  Returns (skipn (Z.to_nat (nextIndex c)) (hosts c)
           ++ firstn (Z.to_nat (nextIndex c)) (hosts c), c).
Proof.
  intros Hi Hmax. destruct c as [hs n]. simpl in *.
  assert (Hlt : (Z.to_nat n < List.length hs)%nat) by (unfold len in Hi; lia).
  pose proof (calls_from hs Hmax (List.length hs) (Z.to_nat n) Hlt) as Hcalls.
  rewrite Z2Nat.id in Hcalls by lia. rewrite Hcalls.
  rewrite (rotation_cycle hs _ Hlt).
  replace (Z.to_nat n + List.length hs)%nat
    with (Z.to_nat n + 1 * List.length hs)%nat by lia.
  rewrite Nat.Div0.mod_add, Nat.mod_small by exact Hlt.
  now rewrite Z2Nat.id by lia.
Qed.

Lemma GetHost_full_cycle_witness :
  calls 3 {| hosts := [Some uri_a; Some uri_b; Some uri_c]; nextIndex := 2 |} =
  Returns ([Some uri_c; Some uri_a; Some uri_b],
           {| hosts := [Some uri_a; Some uri_b; Some uri_c];
              nextIndex := 2 |}).
Proof.
  apply (GetHost_full_cycle
           {| hosts := [Some uri_a; Some uri_b; Some uri_c];
              nextIndex := 2 |}).
  - unfold len. simpl. lia.
  - vm_compute. discriminate.
Defined.

End ClusterCycle.

(** ** More about the client *)

Section DispatchMore.

Variable env : Env.

(** Every operation is one call of [httpRequest] followed by the
    settling of what it returned. *)
Lemma perform_via_httpRequest (op : Operation) (w : World) :
  perform env op w =
  match httpRequest env (method_of env op) (path_of env op)
                    (data_of env op) (snd (call_of env op)) w with
  | Panics => Panics
  | Returns (r, w') => Returns (settle env op r, w')
  end.
Proof.
  destruct op;
    cbv [perform Query QueryWithOptions CreateDatabase CreateFrame
         EnsureDatabaseExists EnsureFrameExists DeleteDatabase DeleteFrame
         Schema_ createOrDeleteDatabase createOrDeleteFrame bind ret
         makeRequestData method_of path_of data_of call_of settle
         GetProfiles fst snd];
    rewrite ?Sprintf_database_body, ?Sprintf_frame_body;
    match goal with
    | |- context [httpRequest ?e ?m ?p ?d ?n ?w] =>
        destruct (httpRequest e m p d n w) as [|[[buf [err|]] w']]
    end;
    try reflexivity.
  - destruct (Unmarshal env (bytes_NewReader buf)) as [iqr [err|]];
      reflexivity.
  - destruct (Unmarshal env (bytes_NewReader buf)) as [iqr [err|]];
      reflexivity.
  - destruct (is_error (Some err) ErrorDatabaseExists); reflexivity.
  - destruct (is_error (Some err) ErrorFrameExists); reflexivity.
  - destruct (json_Decode env (bytes_NewReader buf)) as [schema [err|]];
      reflexivity.
Qed.

Lemma settle_empty_cluster (op : Operation) :
  settle env op (nil', Some ErrorEmptyCluster) = Some ErrorEmptyCluster.
Proof. destruct op; reflexivity. Qed.

Lemma settle_library_error (op : Operation) (buf : ptr string) (d : string) :
  settle env op (buf, Some (LibraryError d)) = Some (LibraryError d).
Proof. destruct op; reflexivity. Qed.

(** An operation, one step at a time. *)
Lemma perform_run (op : Operation) (w : World) :
  perform env op w =
  match GetHost (cluster w) with
  | Panics => Panics
  | Returns (None, c') =>
      Returns (Some ErrorEmptyCluster, {| cluster := c'; wire := wire w |})
  | Returns (Some uri, c') =>
      match NewRequest_check env (method_of env op)
                             (GetNormalizedAddress uri ++ path_of env op) with
      | Some err =>
          Returns (settle env op (nil', Some err),
                   {| cluster := c'; wire := wire w |})
      | None =>
          Returns (settle env op
                     (classify (RoundTrip env (wire w) (request_of env op uri))
                               (snd (call_of env op))),
                   {| cluster := c';
                      wire := (wire w ++ [request_of env op uri])%list |})
      end
  end.
Proof.
  rewrite perform_via_httpRequest, httpRequest_run.
  destruct (GetHost (cluster w)) as [|[[uri|] c']]; try reflexivity.
  - cbv zeta.
    destruct (NewRequest_check env (method_of env op) _); reflexivity.
  - now rewrite settle_empty_cluster.
Qed.

Lemma classify_2xx (response : Response) (needsResponse : bool) :
  (200 <= StatusCode response < 300)%Z ->
  classify (inl response) needsResponse =
  if needsResponse then
    match BodyErr response with
    | Some err => (nil', Some err)
    | None => (Some (Body response), None)
    end
  else (nil', None).
Proof.
  intros H. unfold classify.
  replace (StatusCode response <? 200)%Z with false
    by (symmetry; apply Z.ltb_ge; lia).
  replace (StatusCode response >=? 300)%Z with false
    by (symmetry; rewrite Z.geb_leb; apply Z.leb_gt; lia).
  reflexivity.
Qed.

Lemma classify_non_2xx_error (response : Response) (needsResponse : bool) :
  non_2xx response ->
  fst (classify (inl response) needsResponse) = nil' /\
  snd (classify (inl response) needsResponse) <> None.
Proof.
  intros H. unfold classify. rewrite (non_2xx_test response H).
  destruct (BodyErr response); [split; [reflexivity | discriminate]|].
  destruct (String.eqb _ database_already_exists);
    [split; [reflexivity | discriminate]|].
  destruct (String.eqb _ frame_already_exists);
    split; (reflexivity || discriminate).
Qed.

Lemma status_cases (response : Response) :
  (200 <= StatusCode response < 300)%Z \/ non_2xx response.
Proof. unfold non_2xx. lia. Qed.

End DispatchMore.

Section QueryAndSchema.

Variable env : Env.

(** X5. A query goes out as [POST <address>/query] with the protobuf
    headers and, as body, the marshalled envelope of the database name,
    the query text and the [GetProfiles] option ([false] for [Query]).
    On a 2xx answer whose body is read, the body is unmarshalled: an
    unmarshal error comes back with a [nil] response, and otherwise the
    result is the converted response. On a non-2xx answer nothing is
    unmarshalled: the response is [nil] and the error is not. *)
Theorem QueryWithOptions_exchange options database query w uri c' response :
  GetHost (cluster w) = Returns (Some uri, c') ->
  NewRequest_check env "POST" (GetNormalizedAddress uri ++ "/query") = None ->
  RoundTrip env (wire w)
    {| Method := "POST"; URL := GetNormalizedAddress uri ++ "/query";
       ReqHeader := protobuf_headers;
       ReqBody := Marshal env {| DB := Database_name database;
                                 Query_ := query;
                                 Profiles := GetProfiles options |} |}
  = inl response ->
  exists r,
    QueryWithOptions env options database query w =
    Returns (r,
             {| cluster := c';
                wire :=
                  (wire w ++
                   [{| Method := "POST";
                       URL := GetNormalizedAddress uri ++ "/query";
                       ReqHeader := protobuf_headers;
                       ReqBody := Marshal env
                                    {| DB := Database_name database;
                                       Query_ := query;
                                       Profiles := GetProfiles options |}
                    |}])%list |}) /\
    ((200 <= StatusCode response < 300)%Z -> BodyErr response = None ->
     r = match Unmarshal env (Body response) with
         | (_, Some err) => (nil', Some err)
         | (iqr, None) => newQueryResponseFromInternal env iqr
         end) /\
    (non_2xx response -> fst r = nil' /\ snd r <> None) /\
    Query env database query =
    QueryWithOptions env {| GetProfiles := false |} database query.
Proof.
  intros Hsel Hnew Hrt.
  unfold QueryWithOptions, makeRequestData, bind.
  rewrite httpRequest_run, Hsel. cbv zeta. rewrite Hnew.
  unfold outgoing, bytes_NewReader at 1. rewrite Hrt.
  destruct (classify (inl response) true) as [buf err] eqn:Hclass.
  exists (match err with
          | Some e => (nil', Some e)
          | None =>
              match Unmarshal env (bytes_NewReader buf) with
              | (_, Some e) => (nil', Some e)
              | (iqr, None) => newQueryResponseFromInternal env iqr
              end
          end).
  split; [|split; [|split]].
  - destruct err as [err|]; [reflexivity|].
    destruct (Unmarshal env (bytes_NewReader buf)) as [iqr [err|]];
      reflexivity.
  - intros H2xx Hread. rewrite (classify_2xx response true H2xx), Hread in Hclass.
    injection Hclass as <- <-. reflexivity.
  - intros Hnon.
    destruct (classify_non_2xx_error response true Hnon) as [Hbuf Herr].
    rewrite Hclass in Hbuf, Herr. simpl in Hbuf, Herr.
    destruct err as [err|]; [|congruence].
    split; [reflexivity | discriminate].
  - reflexivity.
Qed.

(** X6. A schema fetch goes out as [GET <address>/schema] with no body.
    On a 2xx answer whose body is read, the body is decoded: a decoding
    error comes back with a [nil] schema. On a non-2xx answer nothing is
    decoded. In every case an error is never accompanied by a schema. *)
Theorem Schema_exchange w uri c' response :
  GetHost (cluster w) = Returns (Some uri, c') ->
  NewRequest_check env "GET" (GetNormalizedAddress uri ++ "/schema") = None ->
  RoundTrip env (wire w)
    {| Method := "GET"; URL := GetNormalizedAddress uri ++ "/schema";
       ReqHeader := protobuf_headers; ReqBody := EmptyString |}
  = inl response ->
  exists r,
    Schema_ env w =
    Returns (r,
             {| cluster := c';
                wire :=
                  (wire w ++
                   [{| Method := "GET";
                       URL := GetNormalizedAddress uri ++ "/schema";
                       ReqHeader := protobuf_headers;
                       ReqBody := EmptyString |}])%list |}) /\
    ((200 <= StatusCode response < 300)%Z -> BodyErr response = None ->
     r = match json_Decode env (Body response) with
         | (_, Some err) => (nil', Some err)
         | (schema, None) => (schema, None)
         end) /\
    (non_2xx response -> fst r = nil' /\ snd r <> None) /\
    (snd r <> None -> fst r = nil').
Proof.
  intros Hsel Hnew Hrt.
  unfold Schema_, bind.
  rewrite httpRequest_run, Hsel. cbv zeta. rewrite Hnew.
  unfold outgoing, bytes_NewReader at 1, nil' at 1. rewrite Hrt.
  destruct (classify (inl response) true) as [buf err] eqn:Hclass.
  exists (match err with
          | Some e => (nil', Some e)
          | None =>
              match json_Decode env (bytes_NewReader buf) with
              | (_, Some e) => (nil', Some e)
              | (schema, None) => (schema, None)
              end
          end).
  split; [|split; [|split]].
  - destruct err as [err|]; [reflexivity|].
    destruct (json_Decode env (bytes_NewReader buf)) as [schema [err|]];
      reflexivity.
  - intros H2xx Hread. rewrite (classify_2xx response true H2xx), Hread in Hclass.
    injection Hclass as <- <-. reflexivity.
  - intros Hnon.
    destruct (classify_non_2xx_error response true Hnon) as [Hbuf Herr].
    rewrite Hclass in Hbuf, Herr. simpl in Hbuf, Herr.
    destruct err as [err|]; [|congruence].
    split; [reflexivity | discriminate].
  - destruct err as [err|]; [reflexivity|].
    destruct (json_Decode env (bytes_NewReader buf)) as [schema [err|]];
      [reflexivity | intros H; now elim H].
Qed.

End QueryAndSchema.

Lemma QueryWithOptions_exchange_witness :
  exists r,
    QueryWithOptions (env_answering ok) {| GetProfiles := true |} database_x
                     "Bitmap(id=1)" world_a =
    Returns (r, {| cluster := {| hosts := [Some uri_a]; nextIndex := 0 |};
                   wire := [{| Method := "POST";
                               URL := "http://a:10101/query";
                               ReqHeader := protobuf_headers;
                               ReqBody := "xBitmap(id=1)" |}] |}) /\
    r = (Some tt, None).
Proof.
  destruct (QueryWithOptions_exchange
              (env_answering ok) {| GetProfiles := true |} database_x
              "Bitmap(id=1)" world_a uri_a
              {| hosts := [Some uri_a]; nextIndex := 0 |} ok)
    as (r & Hrun & Hok & _).
  - reflexivity.
  - reflexivity.
  - reflexivity.
  - exists r. split; [exact Hrun|].
    apply Hok; [simpl; lia | reflexivity].
Defined.

Lemma Schema_exchange_witness :
  exists r,
    Schema_ (env_answering ok) world_a =
    Returns (r, {| cluster := {| hosts := [Some uri_a]; nextIndex := 0 |};
                   wire := [{| Method := "GET";
                               URL := "http://a:10101/schema";
                               ReqHeader := protobuf_headers;
                               ReqBody := EmptyString |}] |}) /\
    r = (Some {| DBs := [] |}, None).
Proof.
  destruct (Schema_exchange
              (env_answering ok) world_a uri_a
              {| hosts := [Some uri_a]; nextIndex := 0 |} ok)
    as (r & Hrun & Hok & _).
  - reflexivity.
  - reflexivity.
  - reflexivity.
  - exists r. split; [exact Hrun|].
    apply Hok; [simpl; lia | reflexivity].
Defined.

Section Outcomes.

Variable env : Env.

(** X7. A create or delete call that is answered succeeds exactly when
    the status is in [200, 300): on such a status the body is not read,
    whatever it says, and on any other status an error is returned. *)
Theorem admin_succeeds_iff_2xx op method path body w response :
  is_plain_admin op = true ->
  admin_call op = Some (method, path, body) ->
  answered env w method path (Some body) response ->
  exists err w',
    perform env op w = Returns (err, w') /\
    (err = None <-> (200 <= StatusCode response < 300)%Z).
Proof.
  intros Hplain Hcall (uri & c' & Hsel & Hnew & Hrt).
  destruct op; try discriminate Hplain; simpl in Hcall;
    injection Hcall as <- <- <-;
    rewrite perform_run, Hsel;
    cbv [request_of method_of path_of data_of call_of settle fst snd];
    rewrite Hnew, Hrt;
    (do 2 eexists; split; [reflexivity|]);
    (destruct (status_cases response) as [H2xx|Hnon];
     [ rewrite (classify_2xx response false H2xx); simpl; tauto
     | destruct (classify_non_2xx_error response false Hnon) as [_ Herr];
       destruct (classify (inl response) false) as [buf err]; simpl in *;
       unfold non_2xx in Hnon; split; [congruence | lia] ]).
Qed.

(** X8. What [httpRequest] returns: never a body together with an
    error; a body only when one was asked for; when one was asked for and
    there is no error, a body; and no success without a request having
    been sent. *)
Theorem httpRequest_body_or_error method path data needsResponse w buf err w' :
  httpRequest env method path data needsResponse w = Returns ((buf, err), w') ->
  (buf <> nil' -> err = None /\ needsResponse = true) /\
  (err = None -> needsResponse = true -> buf <> nil') /\
  (err = None -> exists request, wire w' = (wire w ++ [request])%list).
Proof.
  rewrite httpRequest_run.
  destruct (GetHost (cluster w)) as [|[[uri|] c']]; [discriminate| |].
  - cbv zeta. destruct (NewRequest_check env method _) as [e|].
    + intros [= <- <- <-]. repeat split; (congruence || discriminate).
    + destruct (RoundTrip env _ _) as [response|e].
      * destruct (status_cases response) as [H2xx|Hnon].
        -- rewrite (classify_2xx response needsResponse H2xx).
           destruct needsResponse; [destruct (BodyErr response)|];
             intros [= <- <- <-]; simpl;
             (repeat split; try (congruence || discriminate));
             intros; eexists; reflexivity.
        -- destruct (classify_non_2xx_error response needsResponse Hnon)
             as [Hbuf Herr].
           destruct (classify (inl response) needsResponse) as [b e].
           simpl in Hbuf, Herr. intros [= <- <- <-]. subst b.
           repeat split; congruence.
      * simpl. intros [= <- <- <-].
        repeat split; (congruence || discriminate).
  - intros [= <- <- <-]. repeat split; (congruence || discriminate).
Qed.

(** X9. When the exchange fails in the transport, every operation
    returns the error of the transport as it is; the one request that was
    sent is not sent again, to this endpoint or to another. *)
Theorem transport_error_not_retried op w uri c' description :
  GetHost (cluster w) = Returns (Some uri, c') ->
  NewRequest_check env (method_of env op)
                   (GetNormalizedAddress uri ++ path_of env op) = None ->
  RoundTrip env (wire w) (request_of env op uri)
  = inr (LibraryError description) ->
  perform env op w =
  Returns (Some (LibraryError description),
           {| cluster := c';
              wire := (wire w ++ [request_of env op uri])%list |}).
Proof.
  intros Hsel Hnew Hrt. rewrite perform_run, Hsel, Hnew, Hrt.
  simpl classify. now rewrite settle_library_error.
Qed.

(** X10. When [http.NewRequest] refuses the request, every operation
    returns its error and sends nothing; the endpoint selected for the
    call is used up all the same: the cursor has moved. *)
Theorem refused_request_not_sent op w uri c' description :
  GetHost (cluster w) = Returns (Some uri, c') ->
  NewRequest_check env (method_of env op)
                   (GetNormalizedAddress uri ++ path_of env op)
  = Some (LibraryError description) ->
  perform env op w =
  Returns (Some (LibraryError description),
           {| cluster := c'; wire := wire w |}).
Proof.
  intros Hsel Hnew. rewrite perform_run, Hsel, Hnew.
  now rewrite settle_library_error.
Qed.

End Outcomes.

Lemma admin_succeeds_iff_2xx_witness :
  exists w',
    perform (env_answering
               {| StatusCode := 204; Status := "204 No Content";
                  Body := database_already_exists; BodyErr := None |})
            (OpDeleteDatabase database_x) world_a = Returns (None, w').
Proof.
  destruct (admin_succeeds_iff_2xx
              (env_answering
                 {| StatusCode := 204; Status := "204 No Content";
                    Body := database_already_exists; BodyErr := None |})
              (OpDeleteDatabase database_x) "DELETE" "/db"
              (database_body database_x) world_a
              {| StatusCode := 204; Status := "204 No Content";
                 Body := database_already_exists; BodyErr := None |})
    as (err & w' & Hrun & Hiff).
  - reflexivity.
  - reflexivity.
  - apply answered_world_a.
  - exists w'. rewrite Hrun. f_equal. f_equal. apply Hiff. simpl. lia.
Defined.

Lemma httpRequest_body_or_error_witness :
  exists w',
    httpRequest (env_answering ok) "GET" "/schema" nil' true world_a =
    Returns ((Some EmptyString, None), w') /\
    exists request, wire w' = ([] ++ [request])%list.
Proof.
  eexists. split; [vm_compute; reflexivity|].
  destruct (httpRequest_body_or_error
              (env_answering ok) "GET" "/schema" nil' true world_a
              (Some EmptyString) None _ eq_refl) as (_ & _ & Hsent).
  apply Hsent. reflexivity.
Defined.

Lemma transport_error_not_retried_witness :
  perform (env_failing "connection refused") (OpCreateFrame frame_y) world_a =
  Returns (Some (LibraryError "connection refused"),
           {| cluster := {| hosts := [Some uri_a]; nextIndex := 0 |};
              wire := [request_of (env_failing "connection refused")
                                  (OpCreateFrame frame_y) uri_a] |}).
Proof.
  apply (transport_error_not_retried
           (env_failing "connection refused") (OpCreateFrame frame_y)
           world_a uri_a {| hosts := [Some uri_a]; nextIndex := 0 |}
           "connection refused").
  - reflexivity.
  - reflexivity.
  - reflexivity.
Defined.

Lemma refused_request_not_sent_witness :
  perform (env_refusing "invalid URL") OpSchema
          {| cluster := populate [Some uri_a; Some uri_b]; wire := [] |} =
  Returns (Some (LibraryError "invalid URL"),
           {| cluster := {| hosts := [Some uri_a; Some uri_b];
                            nextIndex := 1 |};
              wire := [] |}).
Proof.
  apply (refused_request_not_sent
           (env_refusing "invalid URL") OpSchema
           {| cluster := populate [Some uri_a; Some uri_b]; wire := [] |}
           uri_a {| hosts := [Some uri_a; Some uri_b]; nextIndex := 1 |}
           "invalid URL").
  - reflexivity.
  - reflexivity.
Defined.

Section Rotation.

Variable env : Env.

Local Open Scope list_scope.

Lemma dispatched_length (us : list URI) (ops : list Operation) :
  forall i, List.length (dispatched env us i ops) = List.length ops.
Proof.
  induction ops as [|op ops IH]; intros i; simpl; [reflexivity|].
  now rewrite IH.
Qed.

Lemma dispatched_nth (us : list URI) (ops : list Operation) :
  forall (i j : nat) (op : Operation),
    (i < List.length us)%nat ->
    nth_error ops j = Some op ->
    exists u,
      nth_error us ((i + j) mod List.length us) = Some u /\
      nth_error (dispatched env us i ops) j = Some (request_of env op u).
Proof.
  induction ops as [|op0 ops IH]; intros i j op Hi Hj.
  - destruct j; discriminate Hj.
  - destruct j as [|j]; simpl in Hj.
    + injection Hj as <-. rewrite Nat.add_0_r, Nat.mod_small by exact Hi.
      destruct (nth_error us i) as [u|] eqn:Hu.
      * exists u. split; [reflexivity|]. simpl. now rewrite Hu.
      * apply nth_error_None in Hu. lia.
    + assert (Hi' : (S i mod List.length us < List.length us)%nat)
        by (apply Nat.mod_upper_bound; lia).
      destruct (IH (S i mod List.length us)%nat j op Hi' Hj)
        as (u & Hu & Hnth).
      exists u. split.
      * rewrite Nat.Div0.add_mod_idemp_l in Hu.
        now replace (i + S j)%nat with (S i + j)%nat by lia.
      * exact Hnth.
Qed.

Lemma perform_all_dispatched (us : list URI) :
  len us <= GoInt.max_int ->
  (forall method url, NewRequest_check env method url = None) ->
  forall (ops : list Operation) (i : nat) (sent : list Request),
    (i < List.length us)%nat ->
    exists errs,
      perform_all env ops
        {| cluster := {| hosts := map Some us; nextIndex := Z.of_nat i |};
           wire := sent |} =
      Returns (errs,
               {| cluster :=
                    {| hosts := map Some us;
                       nextIndex :=
                         Z.of_nat ((i + List.length ops)
                                     mod List.length us) |};
                  wire := sent ++ dispatched env us i ops |}) /\
      List.length errs = List.length ops.
Proof.
  intros Hmax Hnew.
  assert (Hmax' : len (map Some us) <= GoInt.max_int)
    by (unfold len in *; now rewrite length_map).
  induction ops as [|op ops IH]; intros i sent Hi.
  - exists []. simpl. unfold ret.
    now rewrite Nat.add_0_r, Nat.mod_small, app_nil_r by exact Hi.
  - destruct (nth_error us i) as [u|] eqn:Hu;
      [|apply nth_error_None in Hu; lia].
    assert (Hget : GetHost {| hosts := map Some us;
                              nextIndex := Z.of_nat i |} =
                   Returns (Some u,
                            {| hosts := map Some us;
                               nextIndex :=
                                 Z.of_nat (S i mod List.length us) |})).
    { rewrite (GetHost_at (map Some us) i (Some u) Hmax').
      - now rewrite length_map.
      - now apply map_nth_error. }
    assert (Hi' : (S i mod List.length us < List.length us)%nat)
      by (apply Nat.mod_upper_bound; lia).
    destruct (IH (S i mod List.length us)%nat
                 (sent ++ [request_of env op u]) Hi')
      as (errs & Hrun & Hlen).
    eexists (_ :: errs). cbn [perform_all]. unfold bind at 1.
    rewrite perform_run. cbn [cluster wire]. rewrite Hget, Hnew.
    unfold bind at 1. rewrite Hrun. unfold ret.
    split; [|simpl; now rewrite Hlen].
    f_equal. f_equal. f_equal.
    + f_equal. f_equal. rewrite Nat.Div0.add_mod_idemp_l.
      simpl List.length. f_equal. lia.
    + simpl. rewrite Hu, <- app_assoc. reflexivity.
Qed.

(** X11. The operations of a client are dispatched round-robin: on a
    cluster populated with the endpoints [us], when no request is
    refused, the [j]-th operation (from 0) sends its request, and only
    it, to the endpoint at position [j mod N], whatever the answers
    are. *)
Theorem operations_rotate (us : list URI) (ops : list Operation) :
  us <> [] ->
  len us <= GoInt.max_int ->
  (forall method url, NewRequest_check env method url = None) ->
  exists errs w',
    perform_all env ops
                {| cluster := populate (map Some us); wire := [] |} =
    Returns (errs, w') /\
    List.length errs = List.length ops /\
    List.length (wire w') = List.length ops /\
    forall (j : nat) (op : Operation),
      nth_error ops j = Some op ->
      exists u,
        nth_error us (j mod List.length us) = Some u /\
        nth_error (wire w') j = Some (request_of env op u).
Proof.
  intros Hne Hmax Hnew.
  assert (Hpos : (0 < List.length us)%nat)
    by (destruct us; [congruence | simpl; lia]).
  destruct (perform_all_dispatched us Hmax Hnew ops 0 [] Hpos)
    as (errs & Hrun & Hlen).
  rewrite populate_eq. change (Z.of_nat 0) with 0%Z in Hrun.
  exists errs. eexists. split; [exact Hrun|]. cbn [wire app].
  split; [exact Hlen|]. split; [apply dispatched_length|].
  intros j op Hj. apply (dispatched_nth us ops 0 j op Hpos Hj).
Qed.


(** X13. A [nil] host is reported as an empty cluster: when the host at
    the cursor is [nil], every operation returns [ErrorEmptyCluster] and
    sends nothing, although the cluster has hosts, and the cursor moves
    on to the next host. *)
Theorem nil_host_reported_as_empty_cluster (op : Operation) (w : World)
        (i : nat) :
  nextIndex (cluster w) = Z.of_nat i ->
  nth_error (hosts (cluster w)) i = Some nil' ->
  len (hosts (cluster w)) <= GoInt.max_int ->
  hosts (cluster w) <> [] /\
  perform env op w =
  Returns (Some ErrorEmptyCluster,
           {| cluster :=
                {| hosts := hosts (cluster w);
                   nextIndex :=
                     Z.of_nat (S i mod List.length (hosts (cluster w))) |};
              wire := wire w |}).
Proof.
  intros Hcur Hnth Hmax. split.
  - intros Hnil. rewrite Hnil in Hnth. destruct i; discriminate Hnth.
  - rewrite perform_run. destruct w as [[hs n] sent]. simpl in *. subst n.
    now rewrite (GetHost_at hs i nil' Hmax Hnth).
Qed.

End Rotation.

Lemma operations_rotate_witness :
  exists errs w',
    perform_all (env_answering ok)
                [OpSchema; OpCreateDatabase database_x; OpSchema]
                {| cluster := populate (map Some [uri_a; uri_b]);
                   wire := [] |} = Returns (errs, w') /\
    nth_error (wire w') 2 =
    Some (request_of (env_answering ok) OpSchema uri_a).
Proof.
  destruct (operations_rotate (env_answering ok) [uri_a; uri_b]
              [OpSchema; OpCreateDatabase database_x; OpSchema])
    as (errs & w' & Hrun & _ & _ & Hnth).
  - discriminate.
  - vm_compute. discriminate.
  - reflexivity.
  - exists errs, w'. split; [exact Hrun|].
    destruct (Hnth 2%nat OpSchema eq_refl) as (u & Hu & Hreq).
    injection Hu as <-. exact Hreq.
Defined.

Lemma nil_host_reported_as_empty_cluster_witness :
  perform (env_answering ok) (OpQuery database_x "Bitmap(id=1)")
          (world_of (NewClientWithAddress nil') []) =
  Returns (Some ErrorEmptyCluster, world_of (NewClientWithAddress nil') []).
Proof.
  destruct (nil_host_reported_as_empty_cluster
              (env_answering ok) (OpQuery database_x "Bitmap(id=1)")
              (world_of (NewClientWithAddress nil') []) 0)
    as [_ Hrun].
  - reflexivity.
  - reflexivity.
  - vm_compute. discriminate.
  - exact Hrun.
Defined.

(** ** The constructors *)

Section ConstructorFacts.

Variable validateLabel : string -> option error.
Variable validateDatabaseName : string -> option error.
Variable validateFrameName : string -> option error.

Lemma NewDatabaseWithColumnLabel_run (name label : string) :
  NewDatabaseWithColumnLabel validateLabel validateDatabaseName name label =
  Returns
    match validateLabel label with
    | Some err => (nil', Some err)
    | None =>
        match validateDatabaseName name with
        | Some err => (nil', Some err)
        | None =>
            (Some {| Database_name := name;
                     Database_options := {| columnLabel := label |} |},
             None)
        end
    end.
Proof.
  unfold NewDatabaseWithColumnLabel, NewDatabaseOptionsWithColumnLabel,
    NewDatabaseWithOptions.
  destruct (validateLabel label); [reflexivity|].
  destruct (validateDatabaseName name); reflexivity.
Qed.

(** X14. [NewDatabaseWithColumnLabel] never panics. It validates the
    label first and the name second and returns the first error found,
    with a [nil] database; when both are valid it returns, with no error,
    the database that has this name and this column label. [NewDatabase]
    is the same with the column label [profileID]. *)
Theorem NewDatabaseWithColumnLabel_validates (name label : string) :
  exists r,
    NewDatabaseWithColumnLabel validateLabel validateDatabaseName name label
    = Returns r /\
    (forall err, validateLabel label = Some err -> r = (nil', Some err)) /\
    (validateLabel label = None ->
     forall err, validateDatabaseName name = Some err ->
                 r = (nil', Some err)) /\
    (validateLabel label = None -> validateDatabaseName name = None ->
     exists d,
       r = (Some d, None) /\ GetName d = name /\
       columnLabel (Database_options d) = label) /\
    NewDatabase validateLabel validateDatabaseName name =
    NewDatabaseWithColumnLabel validateLabel validateDatabaseName name
                               "profileID".
Proof.
  rewrite NewDatabaseWithColumnLabel_run. eexists. split; [reflexivity|].
  split; [|split; [|split]].
  - intros err ->. reflexivity.
  - intros -> err ->. reflexivity.
  - intros -> ->. eexists. repeat split.
  - reflexivity.
Qed.

Variable env : Env.

(** X15. A database made by [NewDatabase] is created on the wire with
    the column label [profileID]: [CreateDatabase] sends
    [POST <address>/db] with the body
    [{"db": "<name>", "options": {"columnLabel": "profileID"}}]. *)
Theorem NewDatabase_on_the_wire (name : string) (d : Database) w uri c' :
  NewDatabase validateLabel validateDatabaseName name
  = Returns (Some d, None) ->
  GetHost (cluster w) = Returns (Some uri, c') ->
  NewRequest_check env "POST" (GetNormalizedAddress uri ++ "/db") = None ->
  exists err,
    CreateDatabase env d w =
    Returns (err,
             {| cluster := c';
                wire :=
                  (wire w ++
                   [{| Method := "POST";
                       URL := GetNormalizedAddress uri ++ "/db";
                       ReqHeader := protobuf_headers;
                       ReqBody :=
                         "{" ++ dq ++ "db" ++ dq ++ ": " ++ dq ++ name ++ dq
                         ++ ", " ++ dq ++ "options" ++ dq ++ ": {" ++ dq
                         ++ "columnLabel" ++ dq ++ ": " ++ dq ++ "profileID"
                         ++ dq ++ "}}" |}])%list |}).
Proof.
  intros Hnew Hsel Hcheck.
  unfold NewDatabase in Hnew. rewrite NewDatabaseWithColumnLabel_run in Hnew.
  destruct (validateLabel "profileID"); [discriminate|].
  destruct (validateDatabaseName name); [discriminate|].
  injection Hnew as <-.
  change (CreateDatabase env ?x w) with (perform env (OpCreateDatabase x) w).
  rewrite perform_run, Hsel.
  cbv [request_of method_of path_of data_of call_of fst snd].
  rewrite Hcheck. eexists. reflexivity.
Qed.

(** X16. A frame made by [Frame] on a database is created on the wire
    under the name of that database and with the row label [id]:
    [CreateFrame] sends [POST <address>/frame] with the body
    [{"db": "<database>", "frame": "<name>", "options": {"rowLabel": "id"}}].
    The row label is the only part that no validator looks at:
    [FrameWithRowLabel] succeeds for every label once the name is valid. *)
Theorem Frame_on_the_wire (d : Database) (name : string) (f : Frame)
        w uri c' :
  Database_Frame validateFrameName d name = (Some f, None) ->
  GetHost (cluster w) = Returns (Some uri, c') ->
  NewRequest_check env "POST" (GetNormalizedAddress uri ++ "/frame") = None ->
  (exists err,
     CreateFrame env f w =
     Returns (err,
              {| cluster := c';
                 wire :=
                   (wire w ++
                    [{| Method := "POST";
                        URL := GetNormalizedAddress uri ++ "/frame";
                        ReqHeader := protobuf_headers;
                        ReqBody :=
                          "{" ++ dq ++ "db" ++ dq ++ ": " ++ dq
                          ++ GetName d ++ dq ++ ", " ++ dq ++ "frame" ++ dq
                          ++ ": " ++ dq ++ name ++ dq ++ ", " ++ dq
                          ++ "options" ++ dq ++ ": {" ++ dq ++ "rowLabel"
                          ++ dq ++ ": " ++ dq ++ "id" ++ dq ++ "}}"
                     |}])%list |})) /\
  (forall label,
      exists f',
        FrameWithRowLabel validateFrameName d name label = (Some f', None) /\
        rowLabel (Frame_options f') = label /\ Frame_database f' = d).
Proof.
  intros Hframe Hsel Hcheck.
  unfold Database_Frame, FrameWithRowLabel in *.
  destruct (validateFrameName name); [discriminate|].
  injection Hframe as <-. split.
  - change (CreateFrame env ?x w) with (perform env (OpCreateFrame x) w).
    rewrite perform_run, Hsel.
    cbv [request_of method_of path_of data_of call_of fst snd].
    rewrite Hcheck. eexists. reflexivity.
  - intros label. eexists. repeat split.
Qed.

End ConstructorFacts.

Lemma NewDatabaseWithColumnLabel_validates_witness :
  exists r,
    NewDatabaseWithColumnLabel (refuse_empty "invalid label")
                               (refuse_empty "invalid name")
                               EmptyString EmptyString = Returns r /\
    r = (nil', Some (LibraryError "invalid label")).
Proof.
  destruct (NewDatabaseWithColumnLabel_validates
              (refuse_empty "invalid label") (refuse_empty "invalid name")
              EmptyString EmptyString) as (r & Hrun & Hlabel & _).
  exists r. split; [exact Hrun|]. apply Hlabel. reflexivity.
Defined.

Lemma NewDatabase_on_the_wire_witness :
  exists err,
    CreateDatabase (env_answering ok) database_x world_a =
    Returns (err,
             {| cluster := {| hosts := [Some uri_a]; nextIndex := 0 |};
                wire :=
                  [{| Method := "POST"; URL := "http://a:10101/db";
                      ReqHeader := protobuf_headers;
                      ReqBody :=
                        "{" ++ dq ++ "db" ++ dq ++ ": " ++ dq ++ "x" ++ dq
                        ++ ", " ++ dq ++ "options" ++ dq ++ ": {" ++ dq
                        ++ "columnLabel" ++ dq ++ ": " ++ dq ++ "profileID"
                        ++ dq ++ "}}" |}] |}).
Proof.
  apply (NewDatabase_on_the_wire
           (refuse_empty "invalid label") (refuse_empty "invalid name")
           (env_answering ok) "x" database_x world_a uri_a
           {| hosts := [Some uri_a]; nextIndex := 0 |}).
  - reflexivity.
  - reflexivity.
  - reflexivity.
Defined.

Lemma Frame_on_the_wire_witness :
  exists err,
    CreateFrame (env_answering ok) frame_y world_a =
    Returns (err,
             {| cluster := {| hosts := [Some uri_a]; nextIndex := 0 |};
                wire :=
                  [{| Method := "POST"; URL := "http://a:10101/frame";
                      ReqHeader := protobuf_headers;
                      ReqBody :=
                        "{" ++ dq ++ "db" ++ dq ++ ": " ++ dq ++ "x" ++ dq
                        ++ ", " ++ dq ++ "frame" ++ dq ++ ": " ++ dq ++ "y"
                        ++ dq ++ ", " ++ dq ++ "options" ++ dq ++ ": {"
                        ++ dq ++ "rowLabel" ++ dq ++ ": " ++ dq ++ "id" ++ dq
                        ++ "}}" |}] |}).
Proof.
  apply (proj1 (Frame_on_the_wire
                  (refuse_empty "invalid name") (env_answering ok)
                  database_x "y" frame_y world_a uri_a
                  {| hosts := [Some uri_a]; nextIndex := 0 |}
                  eq_refl eq_refl eq_refl)).
Defined.

Section EnsureOutcome.

Variable env : Env.

(** X17. [EnsureDatabaseExists], once answered, succeeds exactly when
    the status is in [200, 300) or the body of a non-2xx answer is read
    and is exactly [database already exists\n]; so does
    [EnsureFrameExists] with [frame already exists\n]. The error of a
    failed read is an error of the library. *)
Theorem Ensure_succeeds_iff w response :
  (forall e, BodyErr response = Some e -> exists d, e = LibraryError d) ->
  (forall database,
      answered env w "POST" "/db" (Some (database_body database)) response ->
      exists err w',
        EnsureDatabaseExists env database w = Returns (err, w') /\
        (err = None <->
         (200 <= StatusCode response < 300)%Z \/
         (non_2xx response /\ BodyErr response = None /\
          Body response = database_already_exists))) /\
  (forall frame,
      answered env w "POST" "/frame" (Some (frame_body frame)) response ->
      exists err w',
        EnsureFrameExists env frame w = Returns (err, w') /\
        (err = None <->
         (200 <= StatusCode response < 300)%Z \/
         (non_2xx response /\ BodyErr response = None /\
          Body response = frame_already_exists))).
Proof.
  intros Hlib.
  assert (Hne : database_already_exists <> frame_already_exists)
    by (vm_compute; discriminate).
  split.
  - intros database (uri & c' & Hsel & Hnew & Hrt).
    change (EnsureDatabaseExists env database w)
      with (perform env (OpEnsureDatabaseExists database) w).
    rewrite perform_run, Hsel.
    cbv [request_of method_of path_of data_of call_of settle fst snd].
    rewrite Hnew, Hrt. do 2 eexists. split; [reflexivity|].
    destruct (status_cases response) as [H2xx|Hnon].
    + rewrite (classify_2xx response false H2xx). simpl. tauto.
    + assert (Hout : ~ (200 <= StatusCode response < 300)%Z)
        by (unfold non_2xx in Hnon; lia).
      unfold classify. rewrite (non_2xx_test response Hnon).
      destruct (BodyErr response) as [e|] eqn:Hread.
      * destruct (Hlib e eq_refl) as [d ->]. simpl.
        split; [discriminate | intros [H|(_ & H & _)]; [tauto | discriminate]].
      * destruct (String.eqb_spec (Body response) database_already_exists)
          as [Hdb|Hdb]; [simpl; tauto|].
        destruct (String.eqb (Body response) frame_already_exists); simpl;
          (split; [discriminate | tauto]).
  - intros frame (uri & c' & Hsel & Hnew & Hrt).
    change (EnsureFrameExists env frame w)
      with (perform env (OpEnsureFrameExists frame) w).
    rewrite perform_run, Hsel.
    cbv [request_of method_of path_of data_of call_of settle fst snd].
    rewrite Hnew, Hrt. do 2 eexists. split; [reflexivity|].
    destruct (status_cases response) as [H2xx|Hnon].
    + rewrite (classify_2xx response false H2xx). simpl. tauto.
    + assert (Hout : ~ (200 <= StatusCode response < 300)%Z)
        by (unfold non_2xx in Hnon; lia).
      unfold classify. rewrite (non_2xx_test response Hnon).
      destruct (BodyErr response) as [e|] eqn:Hread.
      * destruct (Hlib e eq_refl) as [d ->]. simpl.
        split; [discriminate | intros [H|(_ & H & _)]; [tauto | discriminate]].
      * destruct (String.eqb_spec (Body response) database_already_exists)
          as [Hdb|Hdb].
        -- simpl. split; [discriminate|].
           intros [H|(_ & _ & H)]; [tauto | congruence].
        -- destruct (String.eqb_spec (Body response) frame_already_exists)
             as [Hfr|Hfr]; simpl; [tauto | split; [discriminate | tauto]].
Qed.

End EnsureOutcome.

Lemma Ensure_succeeds_iff_witness :
  exists w',
    EnsureFrameExists (env_answering (conflict frame_already_exists))
                      frame_y world_a = Returns (None, w').
Proof.
  destruct (Ensure_succeeds_iff
              (env_answering (conflict frame_already_exists)) world_a
              (conflict frame_already_exists)) as [_ Hframe].
  - intros e He. discriminate He.
  - destruct (Hframe frame_y (answered_world_a _ _ _ _))
      as (err & w' & Hrun & Hiff).
    exists w'. rewrite Hrun. f_equal. f_equal. apply Hiff. right.
    split; [right; simpl; lia | split; reflexivity].
Defined.
